(** * The fraud chatbot's guarded tools, embedded from the Python source

    The development follows [src/engine/agent.py] (class [NokchaAgent]),
    [src/engine/sqlite_manager.py] (class [SQLiteDBManager]) and
    [src/engine/faiss_manager.py] (class [KnowledgeBaseManager]).

    Python strings are sequences of Unicode code points.  The behaviour of
    [str.strip], [str.upper], [\W] and [re.IGNORECASE] on ASCII is written
    out; what the Unicode character database says about the other code
    points is a parameter ([unicode_tables]). *)

From Stdlib Require Import List Bool NArith ZArith QArith Ascii String Lia.
Import ListNotations.

Close Scope Q_scope.
Set Implicit Arguments.

(** ** Python strings *)

Module PyStr.

Local Open Scope N_scope.

Definition char := N.
Definition str := list char.

(** A string literal of the source. *)
Definition lit (s : string) : str := map N_of_ascii (list_ascii_of_string s).

Definition char_eqb (a b : char) : bool := N.eqb a b.

Fixpoint str_eqb (a b : str) : bool :=
  match a, b with
  | [], [] => true
  | x :: a', y :: b' => char_eqb x y && str_eqb a' b'
  | _, _ => false
  end.

(** What Python takes from the Unicode character database for the code
    points outside ASCII. *)
Record unicode_tables := {
  (** [Py_UNICODE_ISALNUM]: the code point is a letter or a digit. *)
  uni_isalnum : char -> bool;
  (** the code point equals the pattern letter under [re.IGNORECASE]
      (U+017F matches [s], U+0130 matches [i], ...). *)
  uni_caseless : char -> char -> bool;
  (** the full upper-case mapping of [str.upper] (U+00DF gives [SS]). *)
  uni_upper : char -> list char
}.

Definition in_range (lo hi c : char) : bool := (lo <=? c)%N && (c <=? hi)%N.

Definition is_ascii (c : char) : bool := (c <? 128)%N.

(** [Py_UNICODE_ISSPACE]: the characters [str.strip()] removes. *)
Definition isspace (c : char) : bool :=
  in_range 9 13 c || in_range 28 32 c
  || (c =? 133)%N || (c =? 160)%N || (c =? 5760)%N
  || in_range 8192 8202 c || (c =? 8232)%N || (c =? 8233)%N
  || (c =? 8239)%N || (c =? 8287)%N || (c =? 12288)%N.

Definition ascii_isalnum (c : char) : bool :=
  in_range 48 57 c || in_range 65 90 c || in_range 97 122 c.

Definition ascii_lower (c : char) : char :=
  if in_range 65 90 c then (c + 32)%N else c.

Definition ascii_upper (c : char) : char :=
  if in_range 97 122 c then (c - 32)%N else c.

Section Unicode.

Variable U : unicode_tables.

(** No white-space code point is a letter or a digit, inside ASCII or
    outside. *)
Definition isalnum (c : char) : bool :=
  if is_ascii c then ascii_isalnum c
  else negb (isspace c) && uni_isalnum U c.

(** The class [\w] of a [str] pattern: alphanumeric or underscore. *)
Definition is_word (c : char) : bool := isalnum c || (c =? 95)%N.

(** Does the subject character [c] match the pattern character [p]?
    Without [re.IGNORECASE] only when they are equal.  With it the two are
    compared up to case; white space has no case. *)
Definition literal_matches (ignorecase : bool) (p c : char) : bool :=
  (c =? p)%N
  || (ignorecase && negb (isspace c) && negb (isspace p)
      && (if is_ascii c && is_ascii p
          then (ascii_lower c =? ascii_lower p)%N
          else uni_caseless U p c)).

Definition upper_char (c : char) : list char :=
  if is_ascii c then [ascii_upper c] else uni_upper U c.

(** [s.upper()] *)
Definition upper (s : str) : str := flat_map upper_char s.

End Unicode.

Fixpoint lstrip (s : str) : str :=
  match s with
  | c :: s' => if isspace c then lstrip s' else s
  | [] => []
  end.

Definition rstrip (s : str) : str := rev (lstrip (rev s)).

(** [s.strip()] *)
Definition strip (s : str) : str := rstrip (lstrip s).

(** A run of white space, as [strip] removes it. *)
Definition spaces (ws : str) : Prop := Forall (fun c => isspace c = true) ws.

(** [s.startswith(p)] *)
Fixpoint startswith (s p : str) : bool :=
  match p, s with
  | [], _ => true
  | x :: p', c :: s' => char_eqb c x && startswith s' p'
  | _ :: _, [] => false
  end.

(** [s.split()]: the maximal runs of characters that are not white
    space; [word] holds the run being read, last character first. *)
Fixpoint split_from (word : str) (s : str) : list str :=
  match s with
  | [] =>
      match word with
      | [] => []
      | _ => [rev word]
      end
  | c :: s' =>
      if isspace c
      then match word with
           | [] => split_from [] s'
           | _ => rev word :: split_from [] s'
           end
      else split_from (c :: word) s'
  end.

Definition split (s : str) : list str := split_from [] s.

(** The tables of a Python whose strings never leave ASCII; the examples
    below run on ASCII queries, for which no table is consulted. *)
Definition ascii_only : unicode_tables :=
  {| uni_isalnum := fun _ => false;
     uni_caseless := fun _ _ => false;
     uni_upper := fun c => [c] |}.

End PyStr.

Import PyStr.

(** ** The fragment of [re] that [query_sql] uses *)

Module Re.

Local Open Scope N_scope.

(** One position of a pattern: [\W], [^], [$], or an escaped literal. *)
Inductive item :=
| NonWord
| Bol
| Eol
| Lit (p : char).

(** A non-capturing group [(?:a|b)] of single items; a group of one item
    is the item itself. *)
Definition group := list item.

Definition pattern := list group.

(** [re.escape(s)]: every character of [s] stands for itself. *)
Definition escape (s : str) : pattern := map (fun c => [Lit c]) s.

(** [$] matches at the end of the string and before a final newline. *)
Definition at_end (s : str) : bool :=
  match s with
  | [] => true
  | [c] => (c =? 10)%N
  | _ => false
  end.

Definition is_nil (s : str) : bool :=
  match s with
  | [] => true
  | _ => false
  end.

Section Matching.

Variable U : unicode_tables.
Variable ignorecase : bool.

(** Match the pattern at the current position; [at_start] says whether
    the position is the beginning of the subject. *)
Fixpoint match_here (p : pattern) (at_start : bool) (s : str) : bool :=
  match p with
  | [] => true
  | g :: p' =>
      existsb (fun it =>
        match it with
        | Bol => at_start && match_here p' at_start s
        | Eol => at_end s && match_here p' at_start s
        | NonWord =>
            match s with
            | c :: s' => negb (is_word U c) && match_here p' false s'
            | [] => false
            end
        | Lit l =>
            match s with
            | c :: s' => literal_matches U ignorecase l c && match_here p' false s'
            | [] => false
            end
        end) g
  end.

Fixpoint search_from (p : pattern) (at_start : bool) (s : str) : bool :=
  match_here p at_start s
  || match s with
     | [] => false
     | _ :: s' => search_from p false s'
     end.

(** [re.search(p, s, flags)] as a truth value. *)
Definition search (p : pattern) (s : str) : bool := search_from p true s.

End Matching.

End Re.

(** ** Exceptions and results of Python calls *)

Module Py.

Inductive exn :=
| ValueError (msg : str)
| sqlite3_Error (msg : str)          (* sqlite3.Error and its subclasses *)
| AttributeError (msg : str)
| AssertionError
| OtherException (name msg : str).   (* any other class under Exception *)

Inductive outcome (A : Type) :=
| Return (a : A)
| Raise (e : exn).

Arguments Return {A} a.
Arguments Raise {A} e.

(** [isinstance(e, sqlite3.Error)] *)
Definition is_sqlite3_Error (e : exn) : bool :=
  match e with
  | sqlite3_Error _ => true
  | _ => false
  end.

End Py.

Import Py.

(** ** [sqlite_manager.py] *)

Module SqliteManager.

Inductive sql_value :=
| SqlNull
| SqlInteger (z : Z)
| SqlReal (q : Q)
| SqlText (s : str)
| SqlBlob (b : list N).

(** A [sqlite3.Row]: the columns of the result set with their values. *)
Definition Row := list (str * sql_value).

(** A Python [dict] with string keys, in insertion order. *)
Definition dict := list (str * sql_value).

Fixpoint dict_set (k : str) (v : sql_value) (d : dict) : dict :=
  match d with
  | [] => [(k, v)]
  | (k', v') :: d' =>
      if str_eqb k' k then (k', v) :: d' else (k', v') :: dict_set k v d'
  end.

(** Column names of a [sqlite3.Row] are compared without regard to ASCII
    case, and only when both names are ASCII. *)
Definition equal_ignore_case (a b : str) : bool :=
  str_eqb a b
  || (forallb is_ascii a && forallb is_ascii b
      && str_eqb (map ascii_lower a) (map ascii_lower b)).

(** [row[k]]: the value of the first column called [k]. *)
Fixpoint row_get (r : Row) (k : str) : sql_value :=
  match r with
  | [] => SqlNull
  | (name, v) :: r' => if equal_ignore_case k name then v else row_get r' k
  end.

(** [dict(row)]: one entry for each key of [row.keys()]. *)
Definition dict_of_row (r : Row) : dict :=
  fold_left (fun d k => dict_set k (row_get r k) d) (map fst r) [].

(** [row[k]] in a place where the key need not exist: [IndexError] when
    no column is called [k]. *)
Fixpoint row_subscript (r : Row) (k : str) : outcome sql_value :=
  match r with
  | [] => Raise (OtherException (lit "IndexError")
                   (lit "No item with that key"))
  | (name, v) :: r' =>
      if equal_ignore_case k name then Return v else row_subscript r' k
  end.

(** [[col[k] for col in rows]] *)
Fixpoint column_of (k : str) (rows : list Row) : outcome (list sql_value) :=
  match rows with
  | [] => Return []
  | col :: rows' =>
      match row_subscript col k with
      | Raise e => Raise e
      | Return v =>
          match column_of k rows' with
          | Raise e => Raise e
          | Return vs => Return (v :: vs)
          end
      end
  end.

(** [f"PRAGMA table_info({table_name})"] *)
Definition table_info_statement (table_name : str) : str :=
  lit "PRAGMA table_info(" ++ table_name ++ lit ")".

(** What the process has done with the database so far. *)
Record sqlite_world := {
  connections_opened : nat;
  live_connections : list nat;
  statements_run : list str
}.

(** The [sqlite3] module and the database file behind it: whether a
    connection to a path can be opened, and what executing a statement and
    fetching all its rows gives, both depending on what happened before. *)
Record sqlite3_driver := {
  sqlite3_connect : str -> sqlite_world -> outcome unit;
  execute_fetchall : sqlite_world -> str -> outcome (list Row)
}.

Record SQLiteDBManager := { db_path : str }.

Definition only_select_message : str :=
  lit "Only SELECT queries are allowed for read operations.".

Fixpoint remove_first (c : nat) (l : list nat) : list nat :=
  match l with
  | [] => []
  | x :: l' => if Nat.eqb x c then l' else x :: remove_first c l'
  end.

Section Manager.

Variable U : unicode_tables.
Variable sqlite3 : sqlite3_driver.

(** [_get_db_connection]: a new connection, or the error of
    [sqlite3.connect]. *)
Definition _get_db_connection (self : SQLiteDBManager) (w : sqlite_world)
  : outcome nat * sqlite_world :=
  match sqlite3_connect sqlite3 (db_path self) w with
  | Raise e => (Raise e, w)
  | Return _ =>
      let conn := connections_opened w in
      (Return conn,
       {| connections_opened := S (connections_opened w);
          live_connections := conn :: live_connections w;
          statements_run := statements_run w |})
  end.

(** [conn.close()] *)
Definition close (conn : nat) (w : sqlite_world) : sqlite_world :=
  {| connections_opened := connections_opened w;
     live_connections := remove_first conn (live_connections w);
     statements_run := statements_run w |}.

(** [cursor.execute(query)] followed by [cursor.fetchall()] *)
Definition cursor_execute (query : str) (w : sqlite_world)
  : outcome (list Row) * sqlite_world :=
  (execute_fetchall sqlite3 w query,
   {| connections_opened := connections_opened w;
      live_connections := live_connections w;
      statements_run := statements_run w ++ [query] |}).

(** The test of line 79: [query.strip().upper().startswith("SELECT")]. *)
Definition starts_with_select (query : str) : bool :=
  startswith (upper U (strip query)) (lit "SELECT").

Definition execute_read_query (self : SQLiteDBManager) (query : str)
  (w : sqlite_world) : outcome (list dict) * sqlite_world :=
  (* conn = None; try: *)
  let '(conn, body, w1) :=
    match _get_db_connection self w with
    | (Raise e, w') => (None, Raise e, w')
    | (Return c, w') =>
        if negb (starts_with_select query)
        then (Some c, Raise (ValueError only_select_message), w')
        else
          match cursor_execute query w' with
          | (Raise e, w'') => (Some c, Raise e, w'')
          | (Return rows, w'') => (Some c, Return (map dict_of_row rows), w'')
          end
    end in
  (* except sqlite3.Error: return [] *)
  let result :=
    match body with
    | Raise e => if is_sqlite3_Error e then Return [] else Raise e
    | Return r => Return r
    end in
  (* finally: if conn: conn.close() *)
  let w2 :=
    match conn with
    | Some c => close c w1
    | None => w1
    end in
  (result, w2).

Definition get_column_names (self : SQLiteDBManager) (table_name : str)
  (w : sqlite_world) : outcome (list sql_value) * sqlite_world :=
  (* conn = None; try: *)
  let '(conn, body, w1) :=
    match _get_db_connection self w with
    | (Raise e, w') => (None, Raise e, w')
    | (Return c, w') =>
        match cursor_execute (table_info_statement table_name) w' with
        | (Raise e, w'') => (Some c, Raise e, w'')
        | (Return columns_info, w'') =>
            (Some c, column_of (lit "name") columns_info, w'')
        end
    end in
  (* except sqlite3.Error: return [] *)
  let result :=
    match body with
    | Raise e => if is_sqlite3_Error e then Return [] else Raise e
    | Return r => Return r
    end in
  (* finally: if conn: conn.close() *)
  let w2 :=
    match conn with
    | Some c => close c w1
    | None => w1
    end in
  (result, w2).

End Manager.

End SqliteManager.

(** ** [faiss_manager.py] *)

Module FaissManager.

Record Document := {
  page_content : str;
  metadata : list (str * str)
}.

(** A FAISS vector store, as far as retrieval sees it: the documents it
    holds.  A relevance score, a float in the source, is a rational here;
    only the order of scores is used. *)
Definition FAISS := list Document.

Definition scored := (Document * Q)%type.

Fixpoint insert_by_score (x : scored) (l : list scored) : list scored :=
  match l with
  | [] => [x]
  | y :: l' =>
      if Qle_bool (snd y) (snd x) then x :: l else y :: insert_by_score x l'
  end.

(** Best score first. *)
Definition rank (l : list scored) : list scored :=
  fold_right insert_by_score [] l.

(** [self.vectorstore] is set by [__init__] on the paths that end well;
    [add_text_data] asks [hasattr(self, 'vectorstore')]. *)
Record KnowledgeBaseManager := { vectorstore : option FAISS }.

Definition no_vectorstore_message : str :=
  lit "'KnowledgeBaseManager' object has no attribute 'vectorstore'".

(** The document [_initialize_from_pdfs] puts into the index it calls
    empty. *)
Definition dummy_doc : Document :=
  {| page_content := lit "init";
     metadata := [(lit "id", lit "dummy")] |}.

(** An element of a converted PDF: [element.label.name] and
    [element.text], which may be [None]. *)
Record element := {
  label_name : str;
  text : option str
}.

Definition skipped_labels : list str :=
  map lit ["PAGE_HEADER"; "PAGE_FOOTER"; "DOCUMENT_INDEX"; "PICTURE"]%string.

(** [x in l] for a list of strings *)
Definition str_in (x : str) (l : list str) : bool := existsb (str_eqb x) l.

(** The truth value of a string: it is not empty. *)
Definition truthy (s : str) : bool :=
  match s with
  | [] => false
  | _ => true
  end.

(** [element.text or ""] *)
Definition text_content (e : element) : str :=
  match text e with
  | Some t => t
  | None => []
  end.

(** The body of the loop of [_chunk_pdf] on [(parsed_data,
    current_chunk)]. *)
Definition chunk_step (acc : list str * str) (e : element) : list str * str :=
  let '(parsed_data, current_chunk) := acc in
  let element_type := label_name e in
  if str_in element_type skipped_labels then acc
  else if str_eqb element_type (lit "SECTION_HEADER")
  then ((if truthy current_chunk
         then parsed_data ++ [current_chunk]
         else parsed_data),
        [])
  else if truthy (text_content e)
          && (3 <=? List.length (split (text_content e)))%nat
  then (parsed_data, current_chunk ++ text_content e ++ [10%N])
  else acc.

(** [_chunk_pdf], on the elements the converter found in the file. *)
Definition _chunk_pdf (elements : list element) : list str :=
  let '(parsed_data, current_chunk) :=
    fold_left chunk_step elements ([], []) in
  if truthy current_chunk
  then parsed_data ++ [strip current_chunk]
  else parsed_data.

Section Retrieval.

(** The embedding model with the store's relevance function. *)
Variable relevance : str -> Document -> Q.

(** The text splitter of [add_text_data]. *)
Variable create_documents : str -> list Document.

(** [vectorstore.similarity_search_with_relevance_scores(query, k=k)]:
    the [k] best documents of the index with their scores, fewer when the
    index holds fewer; the index search asserts [k > 0]. *)
Definition similarity_search_with_relevance_scores
  (vs : FAISS) (query : str) (k : Z) : outcome (list scored) :=
  if (k <=? 0)%Z then Raise AssertionError
  else Return (firstn (Z.to_nat k)
                 (rank (map (fun d => (d, relevance query d)) vs))).

Definition retrieve (self : KnowledgeBaseManager) (query : str)
  (top_k fetch_k : Z) : outcome (list scored) :=
  match vectorstore self with
  | None => Raise (AttributeError no_vectorstore_message)
  | Some vs =>
      (* results_with_scores = ...; return results_with_scores *)
      similarity_search_with_relevance_scores vs query fetch_k
  end.

(** [add_text_data]; that the library refuses to build a store from no
    document at all is not distinguished here. *)
Definition add_text_data (text : str) (self : KnowledgeBaseManager)
  : KnowledgeBaseManager :=
  let docs := create_documents text in
  match vectorstore self with
  | Some vs => {| vectorstore := Some (vs ++ docs) |}
  | None => {| vectorstore := Some docs |}
  end.

(** [_initialize_from_pdfs]; [pdf_files] gives, for each PDF found in
    the data folder, the chunks [_chunk_pdf] makes of it. *)
Definition _initialize_from_pdfs (pdf_files : list (list str))
  (self : KnowledgeBaseManager) : outcome KnowledgeBaseManager :=
  match pdf_files with
  | [] => Return {| vectorstore := Some [dummy_doc] |}
  | _ =>
      let self' := fold_left (fun s chunk => add_text_data chunk s)
                     (List.concat pdf_files) self in
      (* self.vectorstore.save_local(self.kb_folder) *)
      match vectorstore self' with
      | None => Raise (AttributeError no_vectorstore_message)
      | Some _ => Return self'
      end
  end.

(** [__init__]: the index saved in [kb_folder], when there is one, or a
    new index from the PDFs. *)
Definition __init__ (saved_index : option FAISS) (pdf_files : list (list str))
  : outcome KnowledgeBaseManager :=
  match saved_index with
  | Some vs => Return {| vectorstore := Some vs |}
  | None => _initialize_from_pdfs pdf_files {| vectorstore := None |}
  end.

(** [vectorstore.similarity_search(query, k=k)]: the documents of the
    scored search, without the scores. *)
Definition similarity_search (vs : FAISS) (query : str) (k : Z)
  : outcome (list Document) :=
  match similarity_search_with_relevance_scores vs query k with
  | Return l => Return (map fst l)
  | Raise e => Raise e
  end.

Definition get_all_documents (self : KnowledgeBaseManager)
  : outcome (list Document) :=
  match vectorstore self with
  | None => Raise (AttributeError no_vectorstore_message)
  | Some vs => similarity_search vs (lit " ") 1000
  end.

End Retrieval.

End FaissManager.

(** ** [agent.py] *)

Module Agent.

Import SqliteManager FaissManager.

(** An entry of [self.tool_calls]: a dict with these three keys. *)
Record ToolCallRecord := {
  tool_name : str;
  query : str;
  status : str
}.

Record NokchaAgent := {
  vectorestore : KnowledgeBaseManager;
  tabstore : SQLiteDBManager;
  tool_calls : list ToolCallRecord
}.

(** The agent object together with the database it talks to. *)
Record state := {
  self : NokchaAgent;
  db : sqlite_world
}.

Definition set_tool_calls (l : list ToolCallRecord) (st : state) : state :=
  {| self := {| vectorestore := vectorestore (self st);
                tabstore := tabstore (self st);
                tool_calls := l |};
     db := db st |}.

(** The ledger of the specification is [self.tool_calls]. *)
Definition ledger (st : state) : list ToolCallRecord := tool_calls (self st).

(** The state with [l] put in front of its ledger. *)
Definition with_prefix (l : list ToolCallRecord) (st : state) : state :=
  set_tool_calls (l ++ ledger st) st.

(** [self.tool_calls.append(record)] *)
Definition append_tool_call (r : ToolCallRecord) (st : state) : state :=
  set_tool_calls (tool_calls (self st) ++ [r]) st.

Definition set_db (w : sqlite_world) (st : state) : state :=
  {| self := self st; db := w |}.

Definition forbidden_keywords : list str :=
  map lit ["UPDATE"; "DELETE"; "INSERT"; "DROP"; "ALTER"; "CREATE";
           "TRUNCATE"]%string.

(** [r'(?:\W|^)' + re.escape(keyword) + r'(?:\W|$)'] *)
Definition keyword_pattern (keyword : str) : Re.pattern :=
  [[Re.NonWord; Re.Bol]] ++ Re.escape keyword ++ [[Re.NonWord; Re.Eol]].

(** A conversation and what the reasoning loop adds to it. *)
Record message := { role : str; content : str }.

Inductive tool := Tool_query_vector_db | Tool_query_sql.

Inductive tool_message :=
| VectorResult (docs : list scored)
| SqlResult (rows : list dict)
| ToolError (e : exn).

Inductive ai_message :=
| ToolCall (text : str) (t : tool) (arg : str)
| Answer (text : str).

Definition ai_content (m : ai_message) : str :=
  match m with
  | ToolCall text _ _ => text
  | Answer text => text
  end.

(** The agent built by [create_deep_agent]: the model's next message for a
    conversation and the tool results so far, the step limit of its graph,
    and whether an exception of a tool is fed back to the model or ends
    the run. *)
Record deep_agent := {
  model : list message -> list tool_message -> ai_message;
  recursion_limit : nat;
  handle_tool_errors : bool
}.

Definition recursion_error : exn :=
  OtherException (lit "GraphRecursionError") (lit "Recursion limit reached").

Section Tools.

Variable U : unicode_tables.
Variable sqlite3 : sqlite3_driver.
Variable relevance : str -> Document -> Q.

Definition query_vector_db (query : str) (st : state)
  : outcome (list scored) * state :=
  match retrieve relevance (vectorestore (self st)) query 5 20 with
  | Raise e => (Raise e, st)
  | Return result =>
      (Return result,
       append_tool_call {| tool_name := lit "query_vector_db";
                           query := query;
                           status := lit "success" |} st)
  end.

Definition disallowed_message (keyword : str) : str :=
  lit "Disallowed operation: '" ++ upper U keyword
  ++ lit "' queries are not permitted. Only 'SELECT' is allowed.".

(** The loop over [forbidden_keywords] (lines 65 to 74): the first keyword
    whose pattern is found in the normalized query. *)
Definition forbidden_keyword_in (normalized_query : str) : option str :=
  find (fun keyword =>
          Re.search U true (keyword_pattern keyword) normalized_query)
       forbidden_keywords.

Definition query_sql (query : str) (st : state)
  : outcome (list dict) * state :=
  let normalized_query := strip query in
  match forbidden_keyword_in normalized_query with
  | Some keyword => (Raise (ValueError (disallowed_message keyword)), st)
  | None =>
      (* the test of line 77 only writes a warning to the log *)
      (* try: *)
      match execute_read_query U sqlite3 (tabstore (self st)) query (db st) with
      | (Return result, w) =>
          (Return result,
           append_tool_call {| tool_name := lit "query_sql";
                               query := query;
                               status := lit "success" |} (set_db w st))
      | (Raise e, w) =>
          (* except Exception as e: raise e *)
          (Raise e, set_db w st)
      end
  end.

Variable agent : deep_agent.

(** One tool call of the loop. *)
Definition call_tool (t : tool) (arg : str) (st : state)
  : outcome tool_message * state :=
  match t with
  | Tool_query_vector_db =>
      match query_vector_db arg st with
      | (Return docs, st') => (Return (VectorResult docs), st')
      | (Raise e, st') => (Raise e, st')
      end
  | Tool_query_sql =>
      match query_sql arg st with
      | (Return rows, st') => (Return (SqlResult rows), st')
      | (Raise e, st') => (Raise e, st')
      end
  end.

(** The reasoning loop of [self.agent]: the messages of the model in
    order, the exception that ended the run if one did, and the state
    left behind. *)
Fixpoint run_agent (steps : nat) (messages : list message)
  (seen : list tool_message) (st : state)
  : list ai_message * option exn * state :=
  match steps with
  | O => ([], Some recursion_error, st)
  | S steps' =>
      let m := model agent messages seen in
      match m with
      | Answer _ => ([m], None, st)
      | ToolCall _ t arg =>
          let '(r, st') := call_tool t arg st in
          let continue_with obs :=
            let '(ms, e, st'') :=
              run_agent steps' messages (seen ++ [obs]) st' in
            (m :: ms, e, st'') in
          match r with
          | Return obs => continue_with obs
          | Raise e =>
              if handle_tool_errors agent then continue_with (ToolError e)
              else ([m], Some e, st')
          end
      end
  end.

(** [aeval]: the final answer with the recorded tool calls. *)
Definition aeval (messages : list message) (st : state)
  : outcome (str * list ToolCallRecord) * state :=
  (* self.tool_calls = [] *)
  let st0 := set_tool_calls [] st in
  let '(ms, e, st1) :=
    run_agent (recursion_limit agent) messages [] st0 in
  match e with
  | Some e => (Raise e, st1)
  | None => (Return (ai_content (last ms (Answer [])), tool_calls (self st1)),
             st1)
  end.

(** [ainvoke], consumed to its end: the chunks it yields, the exception
    that ended it if one did, and the state left behind. *)
Definition ainvoke (messages : list message) (st : state)
  : list str * option exn * state :=
  (* self.tool_calls = [] *)
  let st0 := set_tool_calls [] st in
  let '(ms, e, st1) :=
    run_agent (recursion_limit agent) messages [] st0 in
  (map (fun m => ai_content m ++ lit (String (ascii_of_nat 10) EmptyString)) ms,
   e, st1).

End Tools.

End Agent.

(** ** Notions of the specification *)

Module Tokens.

Section Standalone.

Variable U : unicode_tables.

(** [mid] is [keyword] up to case, character by character. *)
Definition spells (keyword mid : str) : Prop :=
  Forall2 (fun p c => literal_matches U true p c = true) keyword mid.

(** What stands before an occurrence: nothing, or text that ends in a
    non-word character. *)
Definition left_bounded (pre : str) : Prop :=
  pre = [] \/ exists l c, pre = l ++ [c] /\ is_word U c = false.

(** What stands after an occurrence: nothing, or text that begins with a
    non-word character. *)
Definition right_bounded (post : str) : Prop :=
  post = [] \/ exists c r, post = c :: r /\ is_word U c = false.

(** [keyword] appears in [q] as a standalone token, case-insensitively. *)
Definition standalone (keyword q : str) : Prop :=
  exists pre mid post,
    q = pre ++ mid ++ post
    /\ spells keyword mid /\ left_bounded pre /\ right_bounded post.

End Standalone.

(** [q] begins with the word SELECT, in any ASCII case, after leading
    white space. *)
Definition begins_with_select (q : str) : Prop :=
  exists ws word rest,
    q = ws ++ word ++ rest
    /\ spaces ws /\ map ascii_upper word = lit "SELECT".

(** [q] begins with the keyword SELECT: the word, in any ASCII case and
    after leading white space, with the query ending there or going on
    with a non-word character. *)
Definition begins_with_select_keyword (U : unicode_tables) (q : str) : Prop :=
  exists ws word rest,
    q = ws ++ word ++ rest
    /\ spaces ws /\ map ascii_upper word = lit "SELECT"
    /\ right_bounded U rest.

End Tokens.

(** The database world while a call holds its connection, and after a
    call that opened one connection, closed it, and ran [ran]. *)
Module Worlds.

Import SqliteManager.

Definition while_connected (w : sqlite_world) : sqlite_world :=
  {| connections_opened := S (connections_opened w);
     live_connections := connections_opened w :: live_connections w;
     statements_run := statements_run w |}.

Definition after_call (w : sqlite_world) (ran : list str) : sqlite_world :=
  {| connections_opened := S (connections_opened w);
     live_connections := live_connections w;
     statements_run := statements_run w ++ ran |}.

(** What [execute_read_query] makes of the database's answer. *)
Definition softened (r : outcome (list Row)) : outcome (list dict) :=
  match r with
  | Return rows => Return (map dict_of_row rows)
  | Raise e => if is_sqlite3_Error e then Return [] else Raise e
  end.

End Worlds.

(** ** Examples used below *)

Module Fixtures.

Import SqliteManager FaissManager Agent.

Definition stacked_drop : str :=
  lit "SELECT * FROM fraud_data; DROP TABLE fraud_data".

Definition created_by : str := lit "SELECT createdBy FROM fraud_data".

Definition pragma : str := lit "PRAGMA table_info(fraud_data)".

Definition selection : str := lit "SELECTION x FROM fraud_data".

Definition count_fraud : str :=
  lit "SELECT COUNT(*) AS n FROM fraud_data WHERE is_fraud = 1".

Definition missing_column : str := lit "SELECT nope FROM fraud_data".

Definition fresh_world : sqlite_world :=
  {| connections_opened := 0; live_connections := []; statements_run := [] |}.

(** A database with the table [fraud_data]: the count query gives one
    row, a query without rows gives none, anything else is an error of
    the database. *)
Definition fraud_db : sqlite3_driver :=
  {| sqlite3_connect := fun _ _ => Return tt;
     execute_fetchall := fun _ q =>
       if str_eqb q count_fraud then Return [[(lit "n", SqlInteger 7)]]
       else if str_eqb q (lit "SELECT * FROM fraud_data WHERE amt < 0")
       then Return []
       else Raise (sqlite3_Error (lit "no such column")) |}.

(** A database file that cannot be opened. *)
Definition unreachable_db : sqlite3_driver :=
  {| sqlite3_connect := fun _ _ =>
       Raise (sqlite3_Error (lit "unable to open database file"));
     execute_fetchall := fun _ _ => Return [] |}.

Definition manager : SQLiteDBManager := {| db_path := lit "media/fraud.db" |}.

Definition flat_relevance : str -> Document -> Q := fun _ _ => 1%Q.

(** The manager [__init__] leaves when the data folder has no PDF. *)
Definition no_pdf_kb : KnowledgeBaseManager :=
  {| vectorstore := Some [dummy_doc] |}.

Definition fresh_agent : state :=
  {| self := {| vectorestore := no_pdf_kb;
                tabstore := manager;
                tool_calls := [] |};
     db := fresh_world |}.

(** An index of seven chunks. *)
Definition chunk (text : string) : Document :=
  {| page_content := lit text; metadata := [] |}.

Definition seven_chunks : KnowledgeBaseManager :=
  {| vectorstore :=
       Some (map chunk ["a"; "b"; "c"; "d"; "e"; "f"; "g"]%string) |}.

(** A model that sends the text of the first message to [query_sql] and
    answers once it has seen the result. *)
Definition scripted : deep_agent :=
  {| model := fun messages seen =>
       match seen, messages with
       | [], m :: _ => ToolCall [] Tool_query_sql (content m)
       | _, _ => Answer (lit "done")
       end;
     recursion_limit := 25;
     handle_tool_errors := true |}.

Definition user (text : str) : list message :=
  [{| role := lit "user"; content := text |}].

End Fixtures.

(** ** Notions for the rest of the code *)

Module Chunks.

Import FaissManager.

(** The three kinds of element [_chunk_pdf] tells apart. *)
Definition is_skipped (e : element) : bool :=
  str_in (label_name e) skipped_labels.

Definition is_header (e : element) : bool :=
  str_eqb (label_name e) (lit "SECTION_HEADER").

Definition is_body (e : element) : bool :=
  truthy (text_content e)
  && (3 <=? List.length (split (text_content e)))%nat.

(** The element changes the state of the loop. *)
Definition contributes (e : element) : bool :=
  negb (is_skipped e) && (is_header e || is_body e).

(** The number of words of a text. *)
Definition words (s : str) : nat := List.length (split s).

Definition ends_with_newline (s : str) : Prop :=
  exists s', s = s' ++ [10%N].


(** What the loop of [_chunk_pdf] keeps true of [(parsed_data,
    current_chunk)]. *)
Definition well_formed (acc : list str * str) : Prop :=
  Forall (fun c => ends_with_newline c /\ 3 <= words c) (fst acc)
  /\ (snd acc = []
      \/ (ends_with_newline (snd acc) /\ 3 <= words (snd acc))).

End Chunks.

Module Columns.

Import SqliteManager.



End Columns.

Module Ledgers.

Import Agent.

(** A record as the two tools write it: the name of one of them, and the
    status [success]. *)
Definition genuine (r : ToolCallRecord) : Prop :=
  status r = lit "success"
  /\ (tool_name r = lit "query_vector_db" \/ tool_name r = lit "query_sql").

(** A sequence of tool calls, each on the state the one before left. *)
Definition call_tools (U : unicode_tables)
  (sqlite3 : SqliteManager.sqlite3_driver)
  (relevance : str -> FaissManager.Document -> Q)
  (calls : list (tool * str)) (st : state) : state :=
  fold_left (fun s c => snd (call_tool U sqlite3 relevance (fst c) (snd c) s))
    calls st.

End Ledgers.

Module MoreFixtures.

Import SqliteManager FaissManager Agent Fixtures.

Definition body (t : string) : element :=
  {| label_name := lit "TEXT"; text := Some (lit t) |}.

Definition header (t : string) : element :=
  {| label_name := lit "SECTION_HEADER"; text := Some (lit t) |}.

(** A PDF of headings and captions only. *)
Definition headings_only : list element :=
  [header "1 Introduction to card fraud"; body "Figure 1";
   {| label_name := lit "PICTURE"; text := None |};
   header "2 Methods and data"].

Definition two_sections : list element :=
  [body "Card testing is fraud."; header "Chargebacks";
   body " A chargeback reverses a payment. "].

Definition split_by_line (s : str) : list Document :=
  [{| page_content := s; metadata := [] |}].

(** A database that knows the columns of [fraud_data]. *)
Definition schema_db : sqlite3_driver :=
  {| sqlite3_connect := fun _ _ => Return tt;
     execute_fetchall := fun _ q =>
       if str_eqb q (table_info_statement (lit "fraud_data"))
       then Return [[(lit "cid", SqlInteger 0); (lit "name", SqlText (lit "amt"))];
                    [(lit "cid", SqlInteger 1); (lit "name", SqlText (lit "is_fraud"))]]
       else Raise (sqlite3_Error (lit "near PRAGMA: syntax error")) |}.

Definition two_statements : str := lit "SELECT 1; VACUUM".

Definition drop_then_update : str := lit "DROP TABLE a; UPDATE b SET c = 1".

Definition padded_count : str :=
  lit "  " ++ count_fraud ++ lit (String (ascii_of_nat 10) EmptyString).



End MoreFixtures.

(** * Properties *)

Unset Implicit Arguments.

(** ** Strings *)

Module PyStrFacts.

Local Open Scope N_scope.

Ltac to_arith H :=
  unfold isspace, ascii_isalnum, is_ascii, in_range in H;
  repeat first
    [ rewrite orb_true_iff in H | rewrite andb_true_iff in H
    | rewrite N.leb_le in H | rewrite N.ltb_lt in H
    | rewrite N.ltb_ge in H | rewrite N.eqb_eq in H ].

Lemma space_is_not_word (U : unicode_tables) (c : char) :
  isspace c = true -> is_word U c = false.
Proof.
  intros Hs. apply not_true_is_false. intros Hw.
  unfold is_word, isalnum in Hw.
  destruct (is_ascii c) eqn:Ha.
  - to_arith Hs. to_arith Hw. lia.
  - rewrite Hs in Hw. simpl in Hw.
    to_arith Hs. to_arith Ha. to_arith Hw. lia.
Qed.

Lemma literal_match_not_space (U : unicode_tables) (p c : char) :
  isspace p = false ->
  literal_matches U true p c = true -> isspace c = false.
Proof.
  intros Hp Hm. unfold literal_matches in Hm.
  apply orb_true_iff in Hm. destruct Hm as [Hm | Hm].
  - apply N.eqb_eq in Hm. now subst.
  - simpl in Hm. destruct (isspace c); [discriminate | reflexivity].
Qed.

Lemma lstrip_decompose (s : str) :
  exists ws, s = ws ++ lstrip s /\ spaces ws.
Proof.
  induction s as [| c s IH]; simpl.
  - exists []. split; [reflexivity | constructor].
  - destruct (isspace c) eqn:Hc.
    + destruct IH as (ws & Hs & Hws).
      exists (c :: ws). split.
      * simpl. now rewrite <- Hs.
      * now constructor.
    + exists []. split; [reflexivity | constructor].
Qed.

Lemma rstrip_decompose (s : str) :
  exists ws, s = rstrip s ++ ws /\ spaces ws.
Proof.
  unfold rstrip.
  destruct (lstrip_decompose (rev s)) as (ws & Hs & Hws).
  exists (rev ws). split.
  - rewrite <- rev_app_distr, <- Hs. now rewrite rev_involutive.
  - now apply Forall_rev.
Qed.

Lemma strip_decompose (s : str) :
  exists ws1 ws2, s = ws1 ++ strip s ++ ws2 /\ spaces ws1 /\ spaces ws2.
Proof.
  destruct (lstrip_decompose s) as (ws1 & H1 & Hw1).
  destruct (rstrip_decompose (lstrip s)) as (ws2 & H2 & Hw2).
  exists ws1, ws2. unfold strip. now rewrite <- H2.
Qed.

(** Stripping on the left stops at the first character that is not
    white space. *)
Lemma lstrip_keeps (pre : str) (c : char) (rest : str) :
  isspace c = false ->
  exists ws pre', pre = ws ++ pre'
                  /\ lstrip (pre ++ c :: rest) = pre' ++ c :: rest.
Proof.
  intros Hc. induction pre as [| a pre IH]; simpl.
  - exists [], []. rewrite Hc. now split.
  - destruct (isspace a) eqn:Ha.
    + destruct IH as (ws & pre' & Hp & Hl).
      exists (a :: ws), pre'. split; [simpl; now rewrite <- Hp | exact Hl].
    + exists [], (a :: pre). now split.
Qed.

Lemma rstrip_keeps (pre : str) (c : char) (post : str) :
  isspace c = false ->
  exists post' ws, post = post' ++ ws
                   /\ rstrip (pre ++ c :: post) = pre ++ c :: post'.
Proof.
  intros Hc. unfold rstrip.
  assert (Hrev : rev (pre ++ c :: post) = rev post ++ c :: rev pre).
  { rewrite rev_app_distr. simpl. now rewrite <- app_assoc. }
  rewrite Hrev.
  destruct (lstrip_keeps (rev post) c (rev pre) Hc) as (ws & pre' & Hp & Hl).
  exists (rev pre'), (rev ws). split.
  - rewrite <- rev_app_distr, <- Hp. now rewrite rev_involutive.
  - rewrite Hl, rev_app_distr. simpl.
    rewrite rev_involutive, <- app_assoc. reflexivity.
Qed.

(** Upper-casing distributes over concatenation and leaves an upper-case
    ASCII word as it is. *)
Lemma upper_app (U : unicode_tables) (a b : str) :
  upper U (a ++ b) = upper U a ++ upper U b.
Proof. unfold upper. apply flat_map_app. Qed.

Lemma startswith_app (p rest : str) : startswith (p ++ rest) p = true.
Proof.
  induction p as [| x p IH]; simpl.
  - now destruct rest.
  - unfold char_eqb. now rewrite N.eqb_refl.
Qed.

Lemma lstrip_spaces (ws : str) (c : char) (rest : str) :
  spaces ws -> isspace c = false -> lstrip (ws ++ c :: rest) = c :: rest.
Proof.
  intros Hws Hc. induction Hws as [| a ws Ha _ IH]; simpl.
  - now rewrite Hc.
  - now rewrite Ha.
Qed.

Lemma upper_ascii (U : unicode_tables) (s : str) :
  Forall (fun c => is_ascii c = true) s -> upper U s = map ascii_upper s.
Proof.
  intros Hs. induction Hs as [| c s Hc _ IH]; [reflexivity |].
  unfold upper in *. simpl. unfold upper_char at 1.
  now rewrite Hc, IH.
Qed.

Lemma startswith_map_upper (s p : str) :
  startswith (map ascii_upper s) p = true ->
  exists word rest, s = word ++ rest /\ map ascii_upper word = p.
Proof.
  revert s. induction p as [| x p IH]; intros s H.
  - now exists [], s.
  - destruct s as [| c s]; [discriminate |].
    simpl in H. apply andb_true_iff in H. destruct H as [Hc Hs].
    apply N.eqb_eq in Hc. destruct (IH s Hs) as (word & rest & -> & <-).
    exists (c :: word), rest. simpl. now rewrite Hc.
Qed.

(** A character that upper-cases to an ASCII capital is an ASCII letter,
    and so no white space. *)
Lemma upper_capital (c x : char) :
  ascii_upper c = x -> in_range 65 90 x = true ->
  is_ascii c = true /\ isspace c = false.
Proof.
  intros Hu Hx. unfold ascii_upper in Hu.
  destruct (in_range 97 122 c) eqn:Hr.
  - to_arith Hr. to_arith Hx. split.
    + unfold is_ascii. apply N.ltb_lt. lia.
    + apply not_true_is_false. intros Hs. to_arith Hs. lia.
  - subst x. to_arith Hx. split.
    + unfold is_ascii. apply N.ltb_lt. lia.
    + apply not_true_is_false. intros Hs. to_arith Hs. lia.
Qed.

End PyStrFacts.

(** ** Standalone tokens and stripping *)

Module TokensFacts.

Import Tokens PyStrFacts.

Section Standalone.

Variable U : unicode_tables.

Lemma left_bounded_suffix (ws pre : str) :
  left_bounded U (ws ++ pre) -> left_bounded U pre.
Proof.
  intros [H | (l & c & H & Hc)].
  - apply app_eq_nil in H. left. tauto.
  - destruct pre as [| a pre0]; [now left |].
    destruct (@exists_last _ (a :: pre0)) as (l' & c' & Hp); [discriminate |].
    right. exists l', c'. split; [exact Hp |].
    rewrite Hp, app_assoc in H.
    apply app_inj_tail in H. destruct H as [_ ->]. exact Hc.
Qed.

Lemma right_bounded_prefix (post ws : str) :
  right_bounded U (post ++ ws) -> right_bounded U post.
Proof.
  intros [H | (c & r & H & Hc)].
  - apply app_eq_nil in H. left. tauto.
  - destruct post as [| c' post']; [now left |].
    right. simpl in H. injection H as -> _. now exists c, post'.
Qed.

Lemma left_bounded_after_spaces (ws pre : str) :
  spaces ws -> left_bounded U pre -> left_bounded U (ws ++ pre).
Proof.
  intros Hws [-> | (l & c & -> & Hc)].
  - rewrite app_nil_r.
    destruct ws as [| a ws0]; [now left |].
    destruct (@exists_last _ (a :: ws0)) as (l & c & Hl); [discriminate |].
    right. exists l, c. split; [exact Hl |].
    apply space_is_not_word.
    rewrite Hl in Hws. apply Forall_app in Hws. destruct Hws as [_ Hc].
    now inversion Hc.
  - right. exists (ws ++ l), c. now rewrite app_assoc.
Qed.

Lemma right_bounded_before_spaces (post ws : str) :
  spaces ws -> right_bounded U post -> right_bounded U (post ++ ws).
Proof.
  intros Hws [-> | (c & r & -> & Hc)].
  - destruct ws as [| c ws]; [now left |].
    right. exists c, ws. split; [reflexivity |].
    apply space_is_not_word. now inversion Hws.
  - right. now exists c, (r ++ ws).
Qed.

Lemma spells_not_space (keyword mid : str) :
  Forall (fun p => isspace p = false) keyword ->
  spells U keyword mid ->
  Forall (fun c => isspace c = false) mid.
Proof.
  intros Hk Hm. revert Hk.
  induction Hm as [| p c keyword mid Hpc _ IH]; intros Hk.
  - constructor.
  - inversion Hk; subst. constructor.
    + eapply literal_match_not_space; eassumption.
    + now apply IH.
Qed.

(** A keyword stands alone in a query exactly when it stands alone in
    the stripped query: stripping removes white space only, and white
    space is neither part of a keyword nor a word character. *)
Lemma standalone_strip (keyword q : str) :
  keyword <> [] ->
  Forall (fun p => isspace p = false) keyword ->
  standalone U keyword q <-> standalone U keyword (strip q).
Proof.
  intros Hne Hk. split.
  - intros (pre & mid & post & Hq & Hm & Hl & Hr).
    pose proof (spells_not_space keyword mid Hk Hm) as Hmid.
    assert (Hmne : mid <> []).
    { intros ->. inversion Hm. now subst. }
    destruct mid as [| c1 mid1]; [congruence |].
    assert (Hc1 : isspace c1 = false) by now inversion Hmid.
    destruct (lstrip_keeps pre c1 (mid1 ++ post) Hc1)
      as (ws & pre' & Hpre & Hls).
    destruct (exists_last Hmne) as (mid2 & c2 & Hmid2).
    assert (Hc2 : isspace c2 = false).
    { rewrite Hmid2 in Hmid. apply Forall_app in Hmid.
      destruct Hmid as [_ Hc]. now inversion Hc. }
    destruct (rstrip_keeps (pre' ++ mid2) c2 post Hc2)
      as (post' & ws' & Hpost & Hrs).
    exists pre', (c1 :: mid1), post'. repeat split.
    + unfold strip. subst q. simpl. rewrite Hls.
      assert (Hsplit : forall tl,
                 pre' ++ c1 :: mid1 ++ tl = (pre' ++ mid2) ++ c2 :: tl).
      { intros tl. change (c1 :: mid1 ++ tl) with ((c1 :: mid1) ++ tl).
        rewrite Hmid2, <- !app_assoc. reflexivity. }
      rewrite !Hsplit. exact Hrs.
    + exact Hm.
    + subst pre. eapply left_bounded_suffix; eassumption.
    + subst post. eapply right_bounded_prefix; eassumption.
  - intros (pre & mid & post & Hq & Hm & Hl & Hr).
    destruct (strip_decompose q) as (ws1 & ws2 & Hs & Hw1 & Hw2).
    exists (ws1 ++ pre), mid, (post ++ ws2). repeat split.
    + rewrite Hs at 1. rewrite Hq. now rewrite <- !app_assoc.
    + exact Hm.
    + now apply left_bounded_after_spaces.
    + now apply right_bounded_before_spaces.
Qed.

End Standalone.

End TokensFacts.

(** ** The keyword pattern finds exactly the standalone tokens *)

Module ReFacts.

Import Re Tokens Agent.

Section Matching.

Variable U : unicode_tables.

Lemma newline_is_not_word : is_word U 10%N = false.
Proof. reflexivity. Qed.

(** The closing group [(?:\W|$)]. *)
Lemma match_closing_group (b : bool) (s : str) :
  match_here U true [[NonWord; Eol]] b s = true <-> right_bounded U s.
Proof.
  destruct s as [| c s'].
  - split; [now left | reflexivity].
  - cbn [match_here existsb at_end].
    rewrite !orb_false_r, !andb_true_r, orb_true_iff, negb_true_iff. split.
    + intros H. right. exists c, s'. split; [reflexivity |].
      destruct H as [H | H]; [exact H |].
      destruct s'; [| discriminate].
      apply N.eqb_eq in H. subst c. apply newline_is_not_word.
    + intros [H | (c' & r & H & Hc)]; [discriminate |].
      injection H as <- <-. now left.
Qed.

(** The escaped keyword followed by the closing group. *)
Lemma match_keyword_tail (keyword : str) (b : bool) (s : str) :
  match_here U true (escape keyword ++ [[NonWord; Eol]]) b s = true <->
  exists mid post,
    s = mid ++ post /\ spells U keyword mid /\ right_bounded U post.
Proof.
  revert b s. induction keyword as [| p keyword IH]; intros b s.
  - change (escape [] ++ [[NonWord; Eol]]) with [[NonWord; Eol]].
    rewrite match_closing_group. split.
    + intros H. exists [], s. repeat split; [constructor | exact H].
    + intros (mid & post & -> & Hm & Hr). inversion Hm. now subst.
  - change (escape (p :: keyword) ++ [[NonWord; Eol]])
      with ([Lit p] :: (escape keyword ++ [[NonWord; Eol]])).
    cbn [match_here existsb]. rewrite orb_false_r.
    destruct s as [| c s'].
    + split; [discriminate |].
      intros (mid & post & Hs & Hm & _).
      inversion Hm; subst. discriminate.
    + rewrite andb_true_iff, IH. split.
      * intros (Hc & mid & post & -> & Hm & Hr).
        exists (c :: mid), post. repeat split; [now constructor | exact Hr].
      * intros (mid & post & Hs & Hm & Hr).
        inversion Hm as [| p' c' k' mid' Hpc Hm']; subst.
        simpl in Hs. injection Hs as -> ->.
        split; [exact Hpc |]. now exists mid', post.
Qed.

(** The whole pattern at one position. *)
Lemma match_keyword_pattern (keyword : str) (b : bool) (s : str) :
  match_here U true (keyword_pattern keyword) b s = true <->
  (exists c s', s = c :: s' /\ is_word U c = false
                /\ match_here U true (escape keyword ++ [[NonWord; Eol]])
                     false s' = true)
  \/ (b = true
      /\ match_here U true (escape keyword ++ [[NonWord; Eol]]) b s = true).
Proof.
  unfold keyword_pattern.
  change ([[NonWord; Bol]] ++ escape keyword ++ [[NonWord; Eol]])
    with ([NonWord; Bol] :: (escape keyword ++ [[NonWord; Eol]])).
  cbn [match_here existsb]. rewrite orb_false_r, orb_true_iff. split.
  - intros [H | H].
    + left. destruct s as [| c s']; [discriminate |].
      apply andb_true_iff in H. destruct H as [Hc Hm].
      exists c, s'. repeat split; [now apply negb_true_iff | exact Hm].
    + right. now apply andb_true_iff in H.
  - intros [(c & s' & -> & Hc & Hm) | (Hb & Hm)].
    + left. now rewrite Hc, Hm.
    + right. subst b. now rewrite Hm.
Qed.

(** Searching tries every position, and only the first one is the
    beginning of the string. *)
Lemma search_from_positions (p : pattern) (b : bool) (s : str) :
  search_from U true p b s = true <->
  exists pre s', s = pre ++ s'
                 /\ match_here U true p (b && is_nil pre) s' = true.
Proof.
  revert b. induction s as [| c s IH]; intros b.
  - simpl. rewrite orb_false_r. split.
    + intros H. exists [], []. now rewrite andb_true_r.
    + intros (pre & s' & Hs & Hm).
      symmetry in Hs. apply app_eq_nil in Hs. destruct Hs as [-> ->].
      now rewrite andb_true_r in Hm.
  - simpl. rewrite orb_true_iff, IH. split.
    + intros [H | (pre & s' & -> & Hm)].
      * exists [], (c :: s). now rewrite andb_true_r.
      * exists (c :: pre), s'. simpl. rewrite andb_false_r.
        now simpl in Hm.
    + intros (pre & s' & Hs & Hm). destruct pre as [| c' pre].
      * left. simpl in Hs. subst s'. now rewrite andb_true_r in Hm.
      * right. simpl in Hs. injection Hs as -> ->.
        exists pre, s'. rewrite andb_false_r in Hm. now simpl.
Qed.

(** [re.search] with the pattern of a keyword succeeds exactly when the
    keyword stands alone somewhere in the subject. *)
Lemma search_keyword (keyword s : str) :
  search U true (keyword_pattern keyword) s = true <->
  standalone U keyword s.
Proof.
  unfold search. rewrite search_from_positions. split.
  - intros (pre & s' & -> & Hm).
    apply match_keyword_pattern in Hm.
    destruct Hm as [(c & s'' & -> & Hc & Hm) | (Hb & Hm)].
    + apply match_keyword_tail in Hm.
      destruct Hm as (mid & post & -> & Hm & Hr).
      exists (pre ++ [c]), mid, post. repeat split.
      * now rewrite <- app_assoc.
      * exact Hm.
      * right. now exists pre, c.
      * exact Hr.
    + destruct pre; [| discriminate].
      apply match_keyword_tail in Hm.
      destruct Hm as (mid & post & -> & Hm & Hr).
      exists [], mid, post. repeat split; [exact Hm | now left | exact Hr].
  - intros (pre & mid & post & -> & Hm & Hl & Hr).
    assert (Ht : forall b, match_here U true
                   (escape keyword ++ [[NonWord; Eol]]) b (mid ++ post) = true).
    { intros b. apply match_keyword_tail. now exists mid, post. }
    destruct Hl as [-> | (l & c & -> & Hc)].
    + exists [], (mid ++ post). split; [reflexivity |].
      apply match_keyword_pattern. right. split; [reflexivity | apply Ht].
    + exists l, (c :: mid ++ post). split; [now rewrite <- app_assoc |].
      apply match_keyword_pattern. left.
      exists c, (mid ++ post). repeat split; [exact Hc | apply Ht].
Qed.

End Matching.

End ReFacts.

(** ** The keyword gate of [query_sql] *)

Module GuardFacts.

Import Tokens TokensFacts ReFacts SqliteManager Agent Fixtures.

Lemma forbidden_keywords_solid (keyword : str) :
  In keyword forbidden_keywords ->
  keyword <> [] /\ Forall (fun p => isspace p = false) keyword.
Proof.
  intros Hin. simpl in Hin.
  repeat (destruct Hin as [<- | Hin];
          [split; [discriminate | repeat constructor] |]).
  contradiction.
Qed.

(** The keywords are upper case already, so the message quotes them as
    they are. *)
Lemma upper_forbidden (U : unicode_tables) (keyword : str) :
  In keyword forbidden_keywords -> upper U keyword = keyword.
Proof.
  intros Hin. simpl in Hin.
  repeat (destruct Hin as [<- | Hin]; [reflexivity |]).
  contradiction.
Qed.

(** The scan of the stripped query decides whether some forbidden
    keyword stands alone in the query. *)
Lemma scan_finds_standalone (U : unicode_tables) (q keyword : str) :
  forbidden_keyword_in U (strip q) = Some keyword ->
  In keyword forbidden_keywords /\ standalone U keyword q.
Proof.
  intros H. apply find_some in H. destruct H as [Hin Hs].
  split; [exact Hin |].
  destruct (forbidden_keywords_solid keyword Hin) as [Hne Hk].
  apply (standalone_strip U keyword q Hne Hk). now apply search_keyword.
Qed.

Lemma scan_misses_nothing (U : unicode_tables) (q keyword : str) :
  forbidden_keyword_in U (strip q) = None ->
  In keyword forbidden_keywords -> ~ standalone U keyword q.
Proof.
  intros H Hin Hst.
  pose proof (find_none _ _ H keyword Hin) as Hs. cbv beta in Hs.
  destruct (forbidden_keywords_solid keyword Hin) as [Hne Hk].
  apply (standalone_strip U keyword q Hne Hk) in Hst.
  apply search_keyword in Hst. congruence.
Qed.

(** C1: a query in which a forbidden keyword stands alone, in any case
    and at any position, is refused by [query_sql] before anything is
    executed: a [ValueError] whose message quotes a forbidden keyword that
    stands alone in the query is raised, and neither the database nor the
    list of tool calls is touched. *)
Theorem query_sql_rejects_standalone_keyword
  (U : unicode_tables) (sqlite3 : sqlite3_driver) (q : str) (st : state) :
  (exists keyword,
      In keyword forbidden_keywords /\ standalone U keyword q) ->
  exists named,
    In named forbidden_keywords /\ standalone U named q
    /\ query_sql U sqlite3 q st
       = (Raise (ValueError
                   (lit "Disallowed operation: '" ++ named
                    ++ lit "' queries are not permitted. Only 'SELECT' is allowed.")),
          st).
Proof.
  intros (keyword & Hin & Hst). unfold query_sql.
  destruct (forbidden_keyword_in U (strip q)) as [named |] eqn:Hscan.
  - destruct (scan_finds_standalone U q named Hscan) as [Hin' Hst'].
    exists named. repeat split; [exact Hin' | exact Hst' |].
    unfold disallowed_message. now rewrite (upper_forbidden U named Hin').
  - exfalso. exact (scan_misses_nothing U q keyword Hscan Hin Hst).
Qed.

(** The stacked statement of the specification is refused, and the
    message names DROP. *)
Lemma stacked_drop_is_refused :
  standalone ascii_only (lit "DROP") stacked_drop
  /\ query_sql ascii_only fraud_db stacked_drop fresh_agent
     = (Raise (ValueError
                 (lit "Disallowed operation: 'DROP' queries are not permitted. Only 'SELECT' is allowed.")),
        fresh_agent).
Proof.
  assert (Hdrop : standalone ascii_only (lit "DROP") stacked_drop).
  { apply search_keyword. vm_compute. reflexivity. }
  split; [exact Hdrop |].
  destruct (query_sql_rejects_standalone_keyword
              ascii_only fraud_db stacked_drop fresh_agent)
    as (named & Hin & Hst & Heq).
  { exists (lit "DROP"). split; [simpl; tauto | exact Hdrop]. }
  rewrite Heq. apply search_keyword in Hst. simpl in Hin.
  repeat (destruct Hin as [<- | Hin];
          [first [reflexivity | vm_compute in Hst; discriminate] |]).
  contradiction.
Defined.

(** C2: a query in which no forbidden keyword stands alone (the keywords
    occur, if at all, inside longer identifiers) passes the keyword gate:
    the scan finds nothing and [query_sql] gives what the store gives. *)
Theorem query_sql_passes_embedded_keyword
  (U : unicode_tables) (sqlite3 : sqlite3_driver) (q : str) (st : state) :
  (forall keyword,
      In keyword forbidden_keywords -> ~ standalone U keyword q) ->
  forbidden_keyword_in U (strip q) = None
  /\ fst (query_sql U sqlite3 q st)
     = fst (execute_read_query U sqlite3 (tabstore (self st)) q (db st))
  /\ db (snd (query_sql U sqlite3 q st))
     = snd (execute_read_query U sqlite3 (tabstore (self st)) q (db st)).
Proof.
  intros Hnone.
  assert (Hscan : forbidden_keyword_in U (strip q) = None).
  { destruct (forbidden_keyword_in U (strip q)) as [named |] eqn:Hscan;
      [| reflexivity].
    destruct (scan_finds_standalone U q named Hscan) as [Hin Hst].
    exfalso. exact (Hnone named Hin Hst). }
  split; [exact Hscan |].
  unfold query_sql. rewrite Hscan.
  destruct (execute_read_query U sqlite3 (tabstore (self st)) q (db st))
    as [[rows | e] w]; split; reflexivity.
Qed.

(** The column [createdBy] of the specification contains CREATE, and the
    query goes through to the store. *)
Lemma created_by_passes_gate :
  forbidden_keyword_in ascii_only (strip created_by) = None
  /\ fst (query_sql ascii_only fraud_db created_by fresh_agent)
     = fst (execute_read_query ascii_only fraud_db manager created_by
              fresh_world).
Proof.
  destruct (query_sql_passes_embedded_keyword
              ascii_only fraud_db created_by fresh_agent)
    as (Hscan & Hfst & _).
  { intros keyword Hin Hst. apply search_keyword in Hst. simpl in Hin.
    repeat (destruct Hin as [<- | Hin];
            [vm_compute in Hst; discriminate |]).
    contradiction. }
  split; [exact Hscan | exact Hfst].
Defined.

End GuardFacts.

(** ** The store: [execute_read_query] *)

Module StoreFacts.

Import PyStrFacts Tokens SqliteManager Worlds Fixtures.

Section Store.

Variable U : unicode_tables.
Variable sqlite3 : sqlite3_driver.
Variable self : SQLiteDBManager.

Lemma close_own_connection (w : sqlite_world) :
  close (connections_opened w) (while_connected w) = after_call w [].
Proof.
  unfold close, while_connected, after_call. simpl.
  now rewrite Nat.eqb_refl, app_nil_r.
Qed.

Lemma close_after_statement (query : str) (w : sqlite_world) :
  close (connections_opened w) (snd (cursor_execute sqlite3 query (while_connected w)))
  = after_call w [query].
Proof.
  unfold close, cursor_execute, while_connected, after_call. simpl.
  now rewrite Nat.eqb_refl.
Qed.

(** The three ways through the function once a connection is open, and
    the way without one. *)
Lemma execute_read_query_rejected (query : str) (w : sqlite_world) :
  sqlite3_connect sqlite3 (db_path self) w = Return tt ->
  starts_with_select U query = false ->
  execute_read_query U sqlite3 self query w
  = (Raise (ValueError only_select_message), after_call w []).
Proof.
  intros Hc Hg. unfold execute_read_query, _get_db_connection.
  rewrite Hc, Hg. cbn [negb].
  change {| connections_opened := S (connections_opened w);
            live_connections := connections_opened w :: live_connections w;
            statements_run := statements_run w |} with (while_connected w).
  cbn [is_sqlite3_Error]. now rewrite close_own_connection.
Qed.

Lemma execute_read_query_executed (query : str) (w : sqlite_world) :
  sqlite3_connect sqlite3 (db_path self) w = Return tt ->
  starts_with_select U query = true ->
  execute_read_query U sqlite3 self query w
  = (softened (execute_fetchall sqlite3 (while_connected w) query),
     after_call w [query]).
Proof.
  intros Hc Hg. unfold execute_read_query, _get_db_connection.
  rewrite Hc, Hg. cbn [negb].
  change {| connections_opened := S (connections_opened w);
            live_connections := connections_opened w :: live_connections w;
            statements_run := statements_run w |} with (while_connected w).
  rewrite <- (close_after_statement query w).
  unfold cursor_execute, softened.
  destruct (execute_fetchall sqlite3 (while_connected w) query) as [rows | e];
    reflexivity.
Qed.

Lemma execute_read_query_unconnected (query : str) (w : sqlite_world) (e : exn) :
  sqlite3_connect sqlite3 (db_path self) w = Raise e ->
  execute_read_query U sqlite3 self query w
  = ((if is_sqlite3_Error e then Return [] else Raise e), w).
Proof.
  intros Hc. unfold execute_read_query, _get_db_connection.
  now rewrite Hc.
Qed.

End Store.

(** What the test of the gate means: a query that begins with SELECT in
    any case, after leading white space, passes; and for a query of ASCII
    characters this is the only way to pass. *)
Lemma begins_with_select_passes_gate (U : unicode_tables) (q : str) :
  begins_with_select q -> starts_with_select U q = true.
Proof.
  intros (ws & word & rest & -> & Hws & Hw).
  change (lit "SELECT") with [83; 69; 76; 69; 67; 84]%N in Hw.
  destruct word as [| c1 [| c2 [| c3 [| c4 [| c5 [| c6 [| c7 tl]]]]]]];
    try discriminate.
  injection Hw as H1 H2 H3 H4 H5 H6.
  destruct (upper_capital c1 _ H1 eq_refl) as [A1 S1].
  destruct (upper_capital c2 _ H2 eq_refl) as [A2 _].
  destruct (upper_capital c3 _ H3 eq_refl) as [A3 _].
  destruct (upper_capital c4 _ H4 eq_refl) as [A4 _].
  destruct (upper_capital c5 _ H5 eq_refl) as [A5 _].
  destruct (upper_capital c6 _ H6 eq_refl) as [A6 S6].
  destruct (rstrip_keeps [c1; c2; c3; c4; c5] c6 rest S6)
    as (post' & ws' & _ & Hr).
  assert (Hs : strip (ws ++ [c1; c2; c3; c4; c5; c6] ++ rest)
               = [c1; c2; c3; c4; c5; c6] ++ post').
  { unfold strip.
    change (ws ++ [c1; c2; c3; c4; c5; c6] ++ rest)
      with (ws ++ c1 :: ([c2; c3; c4; c5; c6] ++ rest)).
    rewrite (lstrip_spaces ws c1 _ Hws S1). exact Hr. }
  unfold starts_with_select. rewrite Hs, upper_app.
  rewrite (upper_ascii U [c1; c2; c3; c4; c5; c6])
    by (repeat constructor; assumption).
  simpl map. rewrite H1, H2, H3, H4, H5, H6.
  apply (startswith_app [83; 69; 76; 69; 67; 84]%N).
Qed.

Lemma ascii_gate_exact (U : unicode_tables) (q : str) :
  Forall (fun c => is_ascii c = true) q ->
  starts_with_select U q = true <-> begins_with_select q.
Proof.
  intros Hq. split; [| apply begins_with_select_passes_gate].
  intros Hg. unfold starts_with_select in Hg.
  destruct (strip_decompose q) as (ws1 & ws2 & Hs & Hw1 & _).
  assert (Ha : Forall (fun c => is_ascii c = true) (strip q)).
  { rewrite Hs in Hq. apply Forall_app in Hq. destruct Hq as [_ Hq].
    apply Forall_app in Hq. tauto. }
  rewrite (upper_ascii U _ Ha) in Hg.
  destruct (startswith_map_upper _ _ Hg) as (word & rest & Hword & Hup).
  exists ws1, word, (rest ++ ws2). repeat split; [| exact Hw1 | exact Hup].
  rewrite Hs at 1. rewrite Hword. now rewrite <- app_assoc.
Qed.

(** Any text after the six letters goes through the gate. *)
Lemma select_prefix_passes_gate (U : unicode_tables) (rest : str) :
  starts_with_select U (lit "SELECT" ++ rest) = true.
Proof.
  assert (Hl : lstrip (lit "SELECT" ++ rest) = lit "SELECT" ++ rest)
    by reflexivity.
  destruct (rstrip_keeps (lit "SELEC") 84%N rest eq_refl)
    as (post' & ws' & _ & Hr).
  assert (Hs : strip (lit "SELECT" ++ rest) = lit "SELECT" ++ post').
  { unfold strip. rewrite Hl. exact Hr. }
  unfold starts_with_select. rewrite Hs, upper_app.
  apply startswith_app.
Qed.

Ltac no_select_keyword :=
  intros (ws & word & rest & Hq & Hws & Hw & Hr);
  vm_compute in Hq; vm_compute in Hw;
  destruct ws as [| a ws];
  [ destruct word as [| c1 [| c2 [| c3 [| c4 [| c5 [| c6 [| c7 tl]]]]]]];
    try discriminate Hw;
    cbn [app] in Hq; injection Hq; intros; subst;
    first
      [ discriminate Hw
      | destruct Hr as [Hr | (c & r & Hr & Hc)];
        [ discriminate Hr
        | injection Hr; intros; subst; vm_compute in Hc; discriminate Hc ] ]
  | inversion Hws as [| x l Ha Hl]; subst;
    cbn [app] in Hq; injection Hq; intros; subst;
    vm_compute in Ha; discriminate Ha ].

(** C3, as the code has it: the query [SELECTION x FROM fraud_data] does
    not begin with the keyword SELECT, and [execute_read_query] does not
    reject it: the database runs it.  And the PRAGMA, which does not begin
    with SELECT either, gives the empty list and no rejection when the
    database file cannot be opened. *)
Lemma selection_is_not_rejected :
  ~ begins_with_select_keyword ascii_only selection
  /\ execute_read_query ascii_only fraud_db manager selection fresh_world
     = (Return [], after_call fresh_world [selection])
  /\ ~ begins_with_select_keyword ascii_only pragma
  /\ execute_read_query ascii_only unreachable_db manager pragma fresh_world
     = (Return [], fresh_world).
Proof.
  split; [no_select_keyword |].
  split; [reflexivity |].
  split; [no_select_keyword | reflexivity].
Qed.

(** C3, amended: a query whose stripped and upper-cased text does not
    start with the characters SELECT is never run by
    [execute_read_query], whatever the guard said of it: when the
    connection opens the call raises the rejection error and closes the
    connection; when opening the connection raises, the call returns the
    empty list for an error of the database and lets any other exception
    through. *)
Theorem execute_read_query_rejects_non_select
  (U : unicode_tables) (sqlite3 : sqlite3_driver) (self : SQLiteDBManager)
  (query : str) (w : sqlite_world) :
  starts_with_select U query = false ->
  execute_read_query U sqlite3 self query w
  = match sqlite3_connect sqlite3 (db_path self) w with
    | Return _ => (Raise (ValueError only_select_message), after_call w [])
    | Raise e => ((if is_sqlite3_Error e then Return [] else Raise e), w)
    end
  /\ statements_run (snd (execute_read_query U sqlite3 self query w))
     = statements_run w.
Proof.
  intros Hg.
  destruct (sqlite3_connect sqlite3 (db_path self) w) as [[] | e] eqn:Hc.
  - rewrite (execute_read_query_rejected U sqlite3 self query w Hc Hg).
    split; [reflexivity |]. simpl. apply app_nil_r.
  - rewrite (execute_read_query_unconnected U sqlite3 self query w e Hc).
    split; reflexivity.
Qed.

(** The PRAGMA of the specification holds no forbidden keyword, and the
    store refuses it. *)
Lemma pragma_is_rejected_by_store :
  Agent.forbidden_keyword_in ascii_only (strip pragma) = None
  /\ execute_read_query ascii_only fraud_db manager pragma fresh_world
     = (Raise (ValueError only_select_message),
        {| connections_opened := 1;
           live_connections := [];
           statements_run := [] |}).
Proof.
  split; [reflexivity |].
  exact (proj1 (execute_read_query_rejects_non_select
                  ascii_only fraud_db manager pragma fresh_world
                  eq_refl)).
Defined.

(** C4: when the database fails on an executed query with one of its own
    errors, or finds no row, [execute_read_query] returns the empty list
    and raises nothing. *)
Theorem execute_read_query_fails_soft
  (U : unicode_tables) (sqlite3 : sqlite3_driver) (self : SQLiteDBManager)
  (query : str) (w : sqlite_world) :
  sqlite3_connect sqlite3 (db_path self) w = Return tt ->
  starts_with_select U query = true ->
  (execute_fetchall sqlite3 (while_connected w) query = Return []
   \/ exists e,
        execute_fetchall sqlite3 (while_connected w) query = Raise e
        /\ is_sqlite3_Error e = true) ->
  execute_read_query U sqlite3 self query w
  = (Return [], after_call w [query]).
Proof.
  intros Hc Hg Hdb.
  rewrite (execute_read_query_executed U sqlite3 self query w Hc Hg).
  destruct Hdb as [Hdb | (e & Hdb & He)]; rewrite Hdb; simpl.
  - reflexivity.
  - now rewrite He.
Qed.

(** A column the table does not have. *)
Lemma missing_column_gives_no_rows :
  execute_fetchall fraud_db (while_connected fresh_world) missing_column
  = Raise (sqlite3_Error (lit "no such column"))
  /\ execute_read_query ascii_only fraud_db manager missing_column fresh_world
     = (Return [],
        {| connections_opened := 1;
           live_connections := [];
           statements_run := [missing_column] |}).
Proof.
  split; [reflexivity |].
  apply (execute_read_query_fails_soft
           ascii_only fraud_db manager missing_column fresh_world
           eq_refl eq_refl).
  right. exists (sqlite3_Error (lit "no such column")).
  split; reflexivity.
Defined.

(** C8: whatever happens in a call, the connections that are open after
    it are those that were open before it; the call has opened one
    connection of its own when [sqlite3.connect] returned, and none
    otherwise. *)
Theorem execute_read_query_releases_connection
  (U : unicode_tables) (sqlite3 : sqlite3_driver) (self : SQLiteDBManager)
  (query : str) (w : sqlite_world) :
  live_connections (snd (execute_read_query U sqlite3 self query w))
  = live_connections w
  /\ connections_opened (snd (execute_read_query U sqlite3 self query w))
     = match sqlite3_connect sqlite3 (db_path self) w with
       | Return _ => S (connections_opened w)
       | Raise _ => connections_opened w
       end.
Proof.
  destruct (sqlite3_connect sqlite3 (db_path self) w) as [[] | e] eqn:Hc.
  - destruct (starts_with_select U query) eqn:Hg.
    + rewrite (execute_read_query_executed U sqlite3 self query w Hc Hg).
      split; reflexivity.
    + rewrite (execute_read_query_rejected U sqlite3 self query w Hc Hg).
      split; reflexivity.
  - rewrite (execute_read_query_unconnected U sqlite3 self query w e Hc).
    split; reflexivity.
Qed.

(** When the database file cannot be opened the call fails soft as
    well, and no connection is left open. *)
Example unreachable_database_gives_no_rows :
  execute_read_query ascii_only unreachable_db manager count_fraud fresh_world
  = (Return [], fresh_world).
Proof. reflexivity. Qed.

(** C9: the gate looks at the first six characters only.  Once the
    connection is open, a query whose stripped and upper-cased text begins
    with SELECT is run by the database, and the call gives what the
    database gives, whatever follows the six characters. *)
Theorem execute_read_query_gate_is_prefix
  (U : unicode_tables) (sqlite3 : sqlite3_driver) (self : SQLiteDBManager)
  (query : str) (w : sqlite_world) :
  sqlite3_connect sqlite3 (db_path self) w = Return tt ->
  startswith (upper U (strip query)) (lit "SELECT") = true ->
  execute_read_query U sqlite3 self query w
  = (softened (execute_fetchall sqlite3 (while_connected w) query),
     after_call w [query])
  /\ statements_run (snd (execute_read_query U sqlite3 self query w))
     = statements_run w ++ [query].
Proof.
  intros Hc Hg.
  rewrite (execute_read_query_executed U sqlite3 self query w Hc Hg).
  split; reflexivity.
Qed.

(** SELECTION is not the keyword SELECT, and the store runs the query. *)
Lemma selection_reaches_database :
  statements_run
    (snd (execute_read_query ascii_only fraud_db manager selection fresh_world))
  = [selection]
  /\ fst (execute_read_query ascii_only fraud_db manager selection fresh_world)
     = Return [].
Proof.
  destruct (execute_read_query_gate_is_prefix
              ascii_only fraud_db manager selection fresh_world
              eq_refl eq_refl) as [Heq Hrun].
  split; [exact Hrun |]. now rewrite Heq.
Defined.

End StoreFacts.

(** ** The retriever *)

Module FaissFacts.

Import FaissManager Fixtures.

Section Retrieval.

Variable relevance : str -> Document -> Q.

Lemma search_length (vs : FAISS) (query : str) (k : Z) (docs : list scored) :
  similarity_search_with_relevance_scores relevance vs query k = Return docs ->
  (Z.of_nat (List.length docs) <= k)%Z.
Proof.
  unfold similarity_search_with_relevance_scores.
  destruct (Z.leb_spec k 0) as [Hk | Hk]; [discriminate |].
  intros H. injection H as <-.
  pose proof (firstn_le_length (Z.to_nat k)
                (rank (map (fun d => (d, relevance query d)) vs))).
  lia.
Qed.

Lemma search_single (d : Document) (query : str) (k : Z) :
  (0 < k)%Z ->
  similarity_search_with_relevance_scores relevance [d] query k
  = Return [(d, relevance query d)].
Proof.
  intros Hk. unfold similarity_search_with_relevance_scores.
  destruct (Z.leb_spec k 0) as [Hk' | _]; [lia |].
  destruct (Z.to_nat k) as [| n] eqn:Hn; [lia |].
  simpl. now rewrite firstn_nil.
Qed.

Lemma search_none (query : str) (k : Z) :
  (0 < k)%Z ->
  similarity_search_with_relevance_scores relevance [] query k = Return [].
Proof.
  intros Hk. unfold similarity_search_with_relevance_scores.
  destruct (Z.leb_spec k 0) as [Hk' | _]; [lia |].
  now rewrite firstn_nil.
Qed.

End Retrieval.

(** A constructor that ends well has set the index. *)
Lemma init_sets_vectorstore (create_documents : str -> list Document)
  (saved_index : option FAISS) (pdf_files : list (list str))
  (kb : KnowledgeBaseManager) :
  __init__ create_documents saved_index pdf_files = Return kb ->
  vectorstore kb <> None.
Proof.
  unfold __init__, _initialize_from_pdfs.
  destruct saved_index as [vs |].
  - intros H. injection H as <-. discriminate.
  - destruct pdf_files as [| pdf pdfs].
    + intros H. injection H as <-. discriminate.
    + set (built := fold_left _ _ _).
      destruct (vectorstore built) eqn:Hv; [| discriminate].
      intros H. injection H as <-. now rewrite Hv.
Qed.

(** C5, as the code has it: the index [__init__] builds when it finds no
    PDF holds the placeholder document, and [retrieve] returns it. *)
Lemma retrieve_returns_placeholder :
  __init__ (fun _ => []) None [] = Return no_pdf_kb
  /\ retrieve flat_relevance no_pdf_kb (lit "card testing") 5 20
     = Return [(dummy_doc, 1%Q)]
  /\ retrieve flat_relevance no_pdf_kb (lit "card testing") 5 20
     <> Return [].
Proof.
  repeat split. discriminate.
Qed.

(** C5, amended: for a positive [fetch_k], [retrieve] on an index without
    documents returns the empty list; on the index built when no PDF is
    found it returns the one placeholder document with its score; and on
    a manager whose index was never set it raises [AttributeError]. *)
Theorem retrieve_on_empty_index
  (relevance : str -> Document -> Q) (create_documents : str -> list Document)
  (query : str) (top_k fetch_k : Z) :
  (0 < fetch_k)%Z ->
  retrieve relevance {| vectorstore := Some [] |} query top_k fetch_k
  = Return []
  /\ __init__ create_documents None [] = Return no_pdf_kb
  /\ retrieve relevance no_pdf_kb query top_k fetch_k
     = Return [(dummy_doc, relevance query dummy_doc)]
  /\ retrieve relevance {| vectorstore := None |} query top_k fetch_k
     = Raise (AttributeError no_vectorstore_message).
Proof.
  intros Hk. unfold retrieve, no_pdf_kb. cbn [vectorstore].
  repeat split.
  - now apply search_none.
  - now apply search_single.
Qed.

Lemma empty_index_default_fetch :
  retrieve flat_relevance {| vectorstore := Some [] |} (lit "card testing") 5 20
  = Return []
  /\ retrieve flat_relevance no_pdf_kb (lit "card testing") 5 20
     = Return [(dummy_doc, flat_relevance (lit "card testing") dummy_doc)].
Proof.
  destruct (retrieve_on_empty_index flat_relevance (fun _ => [])
              (lit "card testing") 5 20 eq_refl) as (H0 & _ & H1 & _).
  split; [exact H0 | exact H1].
Defined.

(** C10: [retrieve] does not look at [top_k]: for any two values it
    gives the same result, which is that of the similarity search for
    [fetch_k], and so holds at most [fetch_k] documents. *)
Theorem retrieve_ignores_top_k
  (relevance : str -> Document -> Q) (self : KnowledgeBaseManager)
  (query : str) (top_k top_k' fetch_k : Z) :
  retrieve relevance self query top_k fetch_k
  = retrieve relevance self query top_k' fetch_k
  /\ retrieve relevance self query top_k fetch_k
     = match vectorstore self with
       | Some vs =>
           similarity_search_with_relevance_scores relevance vs query fetch_k
       | None => Raise (AttributeError no_vectorstore_message)
       end
  /\ match retrieve relevance self query top_k fetch_k with
     | Return docs => (Z.of_nat (List.length docs) <= fetch_k)%Z
     | Raise _ => True
     end.
Proof.
  repeat split.
  unfold retrieve. destruct (vectorstore self) as [vs |]; [| exact I].
  destruct (similarity_search_with_relevance_scores relevance vs query fetch_k)
    as [docs | e] eqn:Hs; [| exact I].
  exact (search_length relevance vs query fetch_k docs Hs).
Qed.

(** Seven chunks come back although [top_k] is five. *)
Example retrieve_returns_more_than_top_k :
  match retrieve flat_relevance seven_chunks (lit "card testing") 5 20 with
  | Return docs => List.length docs = 7%nat
  | Raise _ => False
  end.
Proof. reflexivity. Qed.

End FaissFacts.

(** ** The agent: tool calls and their ledger *)

Module AgentFacts.

Import SqliteManager FaissManager Agent Fixtures.

Section Tools.

Variable U : unicode_tables.
Variable sqlite3 : sqlite3_driver.
Variable relevance : str -> Document -> Q.
Variable agent : deep_agent.

Lemma append_with_prefix (l : list ToolCallRecord) (r : ToolCallRecord)
  (st : state) :
  append_tool_call r (with_prefix l st) = with_prefix l (append_tool_call r st).
Proof.
  unfold append_tool_call, with_prefix, ledger, set_tool_calls. simpl.
  now rewrite app_assoc.
Qed.

(** The tools read nothing from the ledger; they only append to it. *)
Lemma query_vector_db_frame (l : list ToolCallRecord) (q : str) (st : state) :
  query_vector_db relevance q (with_prefix l st)
  = (fst (query_vector_db relevance q st),
     with_prefix l (snd (query_vector_db relevance q st))).
Proof.
  unfold query_vector_db.
  change (vectorestore (self (with_prefix l st))) with (vectorestore (self st)).
  destruct (retrieve relevance (vectorestore (self st)) q 5 20) as [docs | e].
  - now rewrite append_with_prefix.
  - reflexivity.
Qed.

Lemma query_sql_frame (l : list ToolCallRecord) (q : str) (st : state) :
  query_sql U sqlite3 q (with_prefix l st)
  = (fst (query_sql U sqlite3 q st),
     with_prefix l (snd (query_sql U sqlite3 q st))).
Proof.
  unfold query_sql.
  destruct (forbidden_keyword_in U (strip q)) as [keyword |]; [reflexivity |].
  change (tabstore (self (with_prefix l st))) with (tabstore (self st)).
  change (db (with_prefix l st)) with (db st).
  destruct (execute_read_query U sqlite3 (tabstore (self st)) q (db st))
    as [[rows | e] w].
  - change (set_db w (with_prefix l st)) with (with_prefix l (set_db w st)).
    now rewrite append_with_prefix.
  - reflexivity.
Qed.

Lemma call_tool_frame (l : list ToolCallRecord) (t : tool) (arg : str)
  (st : state) :
  call_tool U sqlite3 relevance t arg (with_prefix l st)
  = (fst (call_tool U sqlite3 relevance t arg st),
     with_prefix l (snd (call_tool U sqlite3 relevance t arg st))).
Proof.
  unfold call_tool. destruct t.
  - rewrite query_vector_db_frame.
    destruct (query_vector_db relevance arg st) as [[docs | e] st'];
      reflexivity.
  - rewrite query_sql_frame.
    destruct (query_sql U sqlite3 arg st) as [[rows | e] st']; reflexivity.
Qed.

(** A run started on a ledger that is not empty keeps what was there in
    front of what it records: without the reset of [aeval] and [ainvoke]
    the entries of an earlier run would stay. *)
Lemma run_agent_frame (l : list ToolCallRecord) (steps : nat)
  (messages : list message) (seen : list tool_message) (st : state) :
  run_agent U sqlite3 relevance agent steps messages seen (with_prefix l st)
  = let '(ms, e, st') :=
      run_agent U sqlite3 relevance agent steps messages seen st in
    (ms, e, with_prefix l st').
Proof.
  revert seen st. induction steps as [| steps IH]; intros seen st.
  - reflexivity.
  - cbn [run_agent].
    destruct (model agent messages seen) as [text t arg | text];
      [| reflexivity].
    rewrite call_tool_frame.
    destruct (call_tool U sqlite3 relevance t arg st) as [[obs | e] st'];
      cbn [fst snd].
    + rewrite IH.
      destruct (run_agent U sqlite3 relevance agent steps messages
                  (seen ++ [obs]) st') as [[ms e'] st''].
      reflexivity.
    + destruct (handle_tool_errors agent); [| reflexivity].
      rewrite IH.
      destruct (run_agent U sqlite3 relevance agent steps messages
                  (seen ++ [ToolError e]) st') as [[ms e'] st''].
      reflexivity.
Qed.

End Tools.

(** C6: [aeval] and [ainvoke] start from the empty ledger whatever the
    ledger held before, so a run that follows another behaves, and ends
    with the ledger, of a run on an agent whose ledger was empty: nothing
    an earlier run recorded is in it. *)
Theorem ledger_is_reset_each_run
  (U : unicode_tables) (sqlite3 : sqlite3_driver)
  (relevance : str -> Document -> Q) (agent : deep_agent)
  (run_a run_b : list message) (st : state) (old : list ToolCallRecord) :
  aeval U sqlite3 relevance agent run_b (set_tool_calls old st)
  = aeval U sqlite3 relevance agent run_b (set_tool_calls [] st)
  /\ ainvoke U sqlite3 relevance agent run_b (set_tool_calls old st)
     = ainvoke U sqlite3 relevance agent run_b (set_tool_calls [] st)
  /\ (let after_a := snd (aeval U sqlite3 relevance agent run_a st) in
      aeval U sqlite3 relevance agent run_b after_a
      = aeval U sqlite3 relevance agent run_b (set_tool_calls [] after_a)
      /\ ainvoke U sqlite3 relevance agent run_b after_a
         = ainvoke U sqlite3 relevance agent run_b (set_tool_calls [] after_a))
  /\ (let after_a := snd (ainvoke U sqlite3 relevance agent run_a st) in
      aeval U sqlite3 relevance agent run_b after_a
      = aeval U sqlite3 relevance agent run_b (set_tool_calls [] after_a)
      /\ ainvoke U sqlite3 relevance agent run_b after_a
         = ainvoke U sqlite3 relevance agent run_b (set_tool_calls [] after_a))
  /\ ledger (snd (aeval U sqlite3 relevance agent run_b (set_tool_calls old st)))
     = ledger (snd (run_agent U sqlite3 relevance agent (recursion_limit agent)
                      run_b [] (set_tool_calls [] st)))
  /\ ledger (snd (ainvoke U sqlite3 relevance agent run_b (set_tool_calls old st)))
     = ledger (snd (run_agent U sqlite3 relevance agent (recursion_limit agent)
                      run_b [] (set_tool_calls [] st))).
Proof.
  repeat split.
  - unfold aeval.
    change (set_tool_calls [] (set_tool_calls old st))
      with (set_tool_calls [] st).
    destruct (run_agent U sqlite3 relevance agent (recursion_limit agent)
                run_b [] (set_tool_calls [] st)) as [[ms [e |]] st1];
      reflexivity.
  - unfold ainvoke.
    change (set_tool_calls [] (set_tool_calls old st))
      with (set_tool_calls [] st).
    destruct (run_agent U sqlite3 relevance agent (recursion_limit agent)
                run_b [] (set_tool_calls [] st)) as [[ms e] st1];
      reflexivity.
Qed.

(** The scenario of the specification, then a second run: the first run
    records its one call of [query_sql]; the second, whose query the store
    refuses, ends with an empty ledger. *)
Example second_run_starts_empty :
  let first := aeval ascii_only fraud_db flat_relevance scripted
                 (user count_fraud) fresh_agent in
  let second := aeval ascii_only fraud_db flat_relevance scripted
                  (user pragma) (snd first) in
  ledger (snd first)
  = [{| tool_name := lit "query_sql";
        query := count_fraud;
        status := lit "success" |}]
  /\ fst second = Return (lit "done", [])
  /\ ledger (snd second) = [].
Proof. vm_compute. repeat split. Qed.

(** C7, as the code has it: the store refuses the PRAGMA, [query_sql]
    raises the error again, and no record of the call is in the ledger. *)
Lemma refused_call_leaves_no_record :
  fst (query_sql ascii_only fraud_db pragma fresh_agent)
  = Raise (ValueError only_select_message)
  /\ ledger (snd (query_sql ascii_only fraud_db pragma fresh_agent)) = [].
Proof. split; reflexivity. Qed.

(** C7, amended: when [query_sql] returns, one record with the name of
    the tool, the query and the status [success] has been appended to the
    ledger; when it raises, the ledger is as it was. *)
Theorem query_sql_records_success_only
  (U : unicode_tables) (sqlite3 : sqlite3_driver) (q : str) (st : state) :
  match fst (query_sql U sqlite3 q st) with
  | Return _ =>
      ledger (snd (query_sql U sqlite3 q st))
      = ledger st ++ [{| tool_name := lit "query_sql";
                         query := q;
                         status := lit "success" |}]
  | Raise _ => ledger (snd (query_sql U sqlite3 q st)) = ledger st
  end.
Proof.
  unfold query_sql.
  destruct (forbidden_keyword_in U (strip q)) as [keyword |]; [reflexivity |].
  destruct (execute_read_query U sqlite3 (tabstore (self st)) q (db st))
    as [[rows | e] w]; reflexivity.
Qed.

(** A failure of the database is no failure of the tool: the store turns
    it into an empty result, and the call is recorded as a success. *)
Example database_error_is_recorded_as_success :
  fst (query_sql ascii_only fraud_db missing_column fresh_agent) = Return []
  /\ ledger (snd (query_sql ascii_only fraud_db missing_column fresh_agent))
     = [{| tool_name := lit "query_sql";
           query := missing_column;
           status := lit "success" |}].
Proof. split; reflexivity. Qed.

End AgentFacts.

(** ** Words of a text *)

Module SplitFacts.

Import PyStrFacts Chunks.

Lemma split_from_leading (ws s : str) :
  spaces ws -> split_from [] (ws ++ s) = split_from [] s.
Proof.
  intros Hws. induction Hws as [| a ws Ha _ IH]; [reflexivity |].
  simpl. now rewrite Ha.
Qed.

Lemma split_from_trailing (word s : str) (c : char) :
  isspace c = true -> split_from word (s ++ [c]) = split_from word s.
Proof.
  intros Hc. revert word. induction s as [| a s IH]; intros word; simpl.
  - rewrite Hc. now destruct word.
  - destruct (isspace a); [destruct word |]; now rewrite IH.
Qed.

Lemma split_from_trailing_spaces (word s ws : str) :
  spaces ws -> split_from word (s ++ ws) = split_from word s.
Proof.
  intros Hws. revert s. induction Hws as [| a ws Ha _ IH]; intros s.
  - now rewrite app_nil_r.
  - change (s ++ a :: ws) with (s ++ [a] ++ ws).
    rewrite app_assoc, IH. now apply split_from_trailing.
Qed.

(** Stripping changes no word. *)
Lemma split_strip (s : str) : split (strip s) = split s.
Proof.
  destruct (strip_decompose s) as (ws1 & ws2 & Hs & Hw1 & Hw2).
  unfold split. rewrite Hs at 2.
  rewrite split_from_leading by exact Hw1.
  now rewrite split_from_trailing_spaces.
Qed.

(** White space inside a text separates the words before it from those
    after it. *)
Lemma split_from_across_space (word a b : str) (c : char) :
  isspace c = true ->
  split_from word (a ++ c :: b) = split_from word (a ++ [c]) ++ split b.
Proof.
  intros Hc. revert word. induction a as [| x a IH]; intros word; simpl.
  - rewrite Hc. now destruct word.
  - destruct (isspace x); [destruct word |]; now rewrite IH.
Qed.

Lemma words_of_line (cur t : str) :
  cur = [] \/ ends_with_newline cur ->
  words (cur ++ t ++ [10%N]) = (words cur + words t)%nat.
Proof.
  unfold words, split. intros [-> | (cur' & ->)].
  - simpl. now rewrite split_from_trailing.
  - rewrite <- app_assoc. cbn [app].
    rewrite split_from_across_space by reflexivity.
    rewrite length_app. unfold split. do 2 f_equal.
    now apply split_from_trailing.
Qed.




End SplitFacts.

(** ** [_chunk_pdf] *)

Module ChunkFacts.

Import PyStrFacts SplitFacts FaissManager Chunks MoreFixtures.

Lemma chunk_step_idle (acc : list str * str) (e : element) :
  contributes e = false -> chunk_step acc e = acc.
Proof.
  unfold contributes, is_skipped, is_header, is_body, chunk_step.
  destruct acc as [parsed cur].
  destruct (str_in (label_name e) skipped_labels); [reflexivity |].
  destruct (str_eqb (label_name e) (lit "SECTION_HEADER")); [discriminate |].
  simpl. now intros ->.
Qed.

Lemma fold_contributing (els : list element) (acc : list str * str) :
  fold_left chunk_step (filter contributes els) acc
  = fold_left chunk_step els acc.
Proof.
  revert acc. induction els as [| e els IH]; intros acc; [reflexivity |].
  simpl. destruct (contributes e) eqn:He.
  - simpl. apply IH.
  - rewrite (chunk_step_idle acc e He). apply IH.
Qed.

(** X2: page headers, page footers, indices, pictures, elements without
    text and texts of fewer than three words leave no trace: the chunks of
    a file are those of the file without these elements. *)
Theorem chunk_pdf_ignores_idle_elements (els : list element) :
  _chunk_pdf (filter contributes els) = _chunk_pdf els.
Proof.
  unfold _chunk_pdf. now rewrite fold_contributing.
Qed.

Lemma chunk_step_well_formed (acc : list str * str) (e : element) :
  well_formed acc -> well_formed (chunk_step acc e).
Proof.
  destruct acc as [parsed cur]. intros [Hp Hc]. unfold chunk_step.
  destruct (str_in (label_name e) skipped_labels); [now split |].
  destruct (str_eqb (label_name e) (lit "SECTION_HEADER")).
  - split; [| now left]. cbn [fst snd] in *.
    destruct cur as [| c cur]; [exact Hp |].
    destruct Hc as [Hc | Hc]; [discriminate |].
    apply Forall_app. split; [exact Hp | now constructor].
  - destruct (truthy (text_content e)
              && (3 <=? List.length (split (text_content e)))) eqn:Hb;
      [| now split].
    apply andb_true_iff in Hb. destruct Hb as [_ Hb].
    apply Nat.leb_le in Hb.
    split; [exact Hp |]. right. cbn [fst snd] in *. split.
    + exists (cur ++ text_content e). now rewrite <- app_assoc.
    + assert (Hcur : cur = [] \/ ends_with_newline cur) by tauto.
      rewrite (words_of_line cur (text_content e) Hcur).
      unfold words at 2. lia.
Qed.

Lemma fold_well_formed (els : list element) (acc : list str * str) :
  well_formed acc -> well_formed (fold_left chunk_step els acc).
Proof.
  revert acc. induction els as [| e els IH]; intros acc H; [exact H |].
  simpl. apply IH. now apply chunk_step_well_formed.
Qed.

Lemma start_well_formed : well_formed ([], []).
Proof. split; [constructor | now left]. Qed.

(** X1: every chunk [_chunk_pdf] returns holds at least three words, so
    none is empty or white space only. *)
Theorem chunk_pdf_chunks_have_three_words (els : list element) :
  Forall (fun c => 3 <= words c /\ c <> []) (_chunk_pdf els).
Proof.
  assert (Hw : Forall (fun c => 3 <= words c) (_chunk_pdf els)).
  { unfold _chunk_pdf.
    pose proof (fold_well_formed els _ start_well_formed) as H.
    destruct (fold_left chunk_step els ([], [])) as [parsed cur].
    destruct H as [Hp Hc]. cbn [fst snd] in *.
    assert (Hp' : Forall (fun c => 3 <= words c) parsed).
    { eapply Forall_impl; [| exact Hp]. cbv beta. tauto. }
    destruct cur as [| c cur]; [exact Hp' |].
    destruct Hc as [Hc | [_ Hc]]; [discriminate |].
    cbn [truthy]. apply Forall_app. split; [exact Hp' |].
    constructor; [| constructor].
    unfold words. now rewrite split_strip. }
  eapply Forall_impl; [| exact Hw]. cbv beta.
  intros c Hc. split; [exact Hc |].
  intros ->. unfold words in Hc. simpl in Hc. lia.
Qed.


Lemma fold_counts_headers (els : list element) (acc : list str * str) :
  List.length (fst (fold_left chunk_step els acc))
  <= List.length (fst acc) + List.length (filter is_header els).
Proof.
  revert acc. induction els as [| e els IH]; intros acc; simpl; [lia |].
  specialize (IH (chunk_step acc e)).
  assert (Hstep : List.length (fst (chunk_step acc e))
                  <= List.length (fst acc)
                     + (if is_header e then 1 else 0)).
  { destruct acc as [parsed cur]. unfold chunk_step, is_header.
    destruct (str_in (label_name e) skipped_labels);
      [cbn [fst]; destruct (str_eqb _ _); lia |].
    destruct (str_eqb (label_name e) (lit "SECTION_HEADER")).
    - cbn [fst]. destruct (truthy cur); [rewrite length_app; simpl |]; lia.
    - destruct (truthy (text_content e) && _); cbn [fst]; lia. }
  destruct (is_header e); simpl; lia.
Qed.

(** X4: a file gives at most one chunk more than it has section
    headers. *)
Theorem chunk_pdf_count (els : list element) :
  List.length (_chunk_pdf els) <= S (List.length (filter is_header els)).
Proof.
  unfold _chunk_pdf.
  pose proof (fold_counts_headers els ([], [])) as H.
  destruct (fold_left chunk_step els ([], [])) as [parsed cur].
  cbn [fst List.length] in H.
  destruct (truthy cur); [rewrite length_app; simpl |]; lia.
Qed.

Lemma fold_without_body (els : list element) :
  Forall (fun e => is_skipped e = true \/ is_header e = true
                   \/ is_body e = false) els ->
  fold_left chunk_step els ([], []) = ([], []).
Proof.
  intros H. induction H as [| e els He _ IH]; [reflexivity |].
  assert (Hstep : chunk_step ([], []) e = ([], [])).
  { unfold chunk_step. unfold is_skipped, is_header, is_body in He.
    destruct (str_in (label_name e) skipped_labels); [reflexivity |].
    destruct (str_eqb (label_name e) (lit "SECTION_HEADER")); [reflexivity |].
    destruct He as [He | [He | He]]; try discriminate. now rewrite He. }
  cbn [fold_left]. rewrite Hstep. exact IH.
Qed.

End ChunkFacts.

(** ** Building and reading the index *)

From Stdlib Require Import Permutation.

Module IndexFacts.

Import FaissManager Chunks ChunkFacts FaissFacts Fixtures MoreFixtures.

Lemma chunk_pdf_without_body (els : list element) :
  Forall (fun e => is_skipped e = true \/ is_header e = true
                   \/ is_body e = false) els ->
  _chunk_pdf els = [].
Proof.
  intros H. unfold _chunk_pdf. now rewrite (fold_without_body els H).
Qed.

Lemma concat_of_empty (A : Type) (ls : list (list A)) :
  Forall (fun l => l = []) ls -> List.concat ls = [].
Proof.
  intros H. induction H as [| l ls -> _ IH]; [reflexivity |]. exact IH.
Qed.

(** X5: when PDFs are found but every element of every PDF is a skipped
    element, a section header (whatever its text), or an element whose
    text is missing or shorter than three words, [__init__] does not fall
    back to the placeholder index: no chunk is added, [self.vectorstore]
    is never set, and saving the index raises [AttributeError]. *)
Theorem init_fails_without_chunks
  (create_documents : str -> list Document) (pdfs : list (list element)) :
  pdfs <> [] ->
  Forall (Forall (fun e => is_skipped e = true \/ is_header e = true
                           \/ is_body e = false)) pdfs ->
  __init__ create_documents None (map _chunk_pdf pdfs)
  = Raise (AttributeError no_vectorstore_message).
Proof.
  intros Hne Hall.
  assert (Hc : List.concat (map _chunk_pdf pdfs) = []).
  { apply concat_of_empty. apply Forall_map.
    eapply Forall_impl; [| exact Hall]. apply chunk_pdf_without_body. }
  unfold __init__, _initialize_from_pdfs. rewrite Hc.
  destruct pdfs as [| els pdfs]; [congruence | reflexivity].
Qed.

Lemma init_fails_on_headings :
  __init__ split_by_line None (map _chunk_pdf [headings_only])
  = Raise (AttributeError no_vectorstore_message).
Proof.
  apply init_fails_without_chunks; [discriminate |].
  repeat constructor;
    first [ left; reflexivity
          | right; left; reflexivity
          | right; right; reflexivity ].
Defined.

Lemma fold_add_text_data (create_documents : str -> list Document)
  (chunks : list str) (vs : FAISS) :
  fold_left (fun s chunk => add_text_data create_documents chunk s) chunks
    {| vectorstore := Some vs |}
  = {| vectorstore := Some (vs ++ flat_map create_documents chunks) |}.
Proof.
  revert vs. induction chunks as [| c chunks IH]; intros vs; simpl.
  - now rewrite app_nil_r.
  - unfold add_text_data at 2. cbn [vectorstore].
    rewrite IH. now rewrite <- app_assoc.
Qed.

(** X6: when the PDFs give at least one chunk, and every chunk splits
    into at least one document (the library adds no empty batch to a
    store), the index [__init__] builds holds the documents of all chunks,
    in the order of the files and of the chunks in them, and no
    placeholder. *)
Theorem init_indexes_all_chunks
  (create_documents : str -> list Document) (pdf_files : list (list str))
  (c : str) (cs : list str) :
  List.concat pdf_files = c :: cs ->
  Forall (fun chunk => create_documents chunk <> []) (c :: cs) ->
  __init__ create_documents None pdf_files
  = Return {| vectorstore := Some (flat_map create_documents (c :: cs)) |}.
Proof.
  intros Hc _.
  assert (Hfold :
    fold_left (fun s chunk => add_text_data create_documents chunk s)
      (c :: cs) {| vectorstore := None |}
    = {| vectorstore := Some (flat_map create_documents (c :: cs)) |}).
  { cbn [fold_left].
    change (add_text_data create_documents c {| vectorstore := None |})
      with {| vectorstore := Some (create_documents c) |}.
    apply fold_add_text_data. }
  unfold __init__, _initialize_from_pdfs.
  destruct pdf_files as [| pdf pdfs]; [discriminate |].
  rewrite Hc, Hfold. reflexivity.
Qed.

Lemma init_indexes_two_sections :
  __init__ split_by_line None [_chunk_pdf two_sections]
  = Return {| vectorstore :=
                Some (flat_map split_by_line (_chunk_pdf two_sections)) |}.
Proof.
  apply (init_indexes_all_chunks split_by_line [_chunk_pdf two_sections]
           (lit "Card testing is fraud." ++ [10%N])
           [lit "A chargeback reverses a payment."]).
  - reflexivity.
  - repeat constructor; discriminate.
Defined.

(** X7: on a manager that [__init__] returned, [retrieve] with a positive
    [fetch_k] raises nothing and returns at most [fetch_k] documents. *)
Theorem retrieve_after_init
  (relevance : str -> Document -> Q) (create_documents : str -> list Document)
  (saved_index : option FAISS) (pdf_files : list (list str))
  (kb : KnowledgeBaseManager) (query : str) (top_k fetch_k : Z) :
  __init__ create_documents saved_index pdf_files = Return kb ->
  (0 < fetch_k)%Z ->
  exists docs,
    retrieve relevance kb query top_k fetch_k = Return docs
    /\ (Z.of_nat (List.length docs) <= fetch_k)%Z.
Proof.
  intros Hinit Hk.
  pose proof (init_sets_vectorstore create_documents saved_index pdf_files
                kb Hinit) as Hv.
  unfold retrieve. destruct (vectorstore kb) as [vs |]; [| congruence].
  destruct (similarity_search_with_relevance_scores relevance vs query fetch_k)
    as [docs | e] eqn:Hs.
  - exists docs. split; [reflexivity |].
    exact (search_length relevance vs query fetch_k docs Hs).
  - exfalso. unfold similarity_search_with_relevance_scores in Hs.
    destruct (Z.leb_spec fetch_k 0); [lia | discriminate].
Qed.

Lemma retrieve_after_init_from_saved :
  exists docs,
    retrieve flat_relevance seven_chunks (lit "card testing") 5 3
    = Return docs
    /\ (Z.of_nat (List.length docs) <= 3)%Z.
Proof.
  apply (retrieve_after_init flat_relevance split_by_line
           (vectorstore seven_chunks) [] seven_chunks);
    reflexivity.
Defined.

Lemma insert_by_score_perm (x : scored) (l : list scored) :
  Permutation (insert_by_score x l) (x :: l).
Proof.
  induction l as [| y l IH]; simpl; [reflexivity |].
  destruct (Qle_bool (snd y) (snd x)); [reflexivity |].
  rewrite IH. apply perm_swap.
Qed.

Lemma rank_perm (l : list scored) : Permutation (rank l) l.
Proof.
  induction l as [| x l IH]; simpl; [reflexivity |].
  rewrite insert_by_score_perm. now constructor.
Qed.

Lemma rank_length (l : list scored) : List.length (rank l) = List.length l.
Proof. apply Permutation_length, rank_perm. Qed.

(** X8: [get_all_documents] asks for the 1000 nearest documents of a
    single space: on a manager with an index it raises nothing, returns at
    most 1000 documents, and returns all documents of the index, in some
    order, only when the index holds no more than 1000. *)
Theorem get_all_documents_is_capped
  (relevance : str -> Document -> Q) (self : KnowledgeBaseManager)
  (vs : FAISS) :
  vectorstore self = Some vs ->
  exists docs,
    get_all_documents relevance self = Return docs
    /\ List.length docs <= 1000
    /\ List.length docs <= List.length vs
    /\ (List.length vs <= 1000 -> Permutation docs vs).
Proof.
  intros Hv. unfold get_all_documents, similarity_search,
    similarity_search_with_relevance_scores.
  rewrite Hv.
  change (1000 <=? 0)%Z with false. cbv iota.
  set (scored_docs := rank (map (fun d => (d, relevance (lit " ") d)) vs)).
  assert (Hperm : Permutation (map fst scored_docs) vs).
  { unfold scored_docs. rewrite rank_perm, map_map. simpl.
    now rewrite map_id. }
  assert (Hlen : List.length scored_docs = List.length vs).
  { transitivity (List.length (map fst scored_docs)).
    - symmetry. apply length_map.
    - now apply Permutation_length. }
  exists (map fst (firstn (Z.to_nat 1000) scored_docs)).
  split; [reflexivity |].
  rewrite length_map.
  pose proof (firstn_le_length (Z.to_nat 1000) scored_docs) as H1.
  rewrite length_firstn. repeat split; try lia.
  intros Hsmall. rewrite firstn_all2 by lia. exact Hperm.
Qed.

Lemma get_all_documents_of_seven :
  exists docs,
    get_all_documents flat_relevance seven_chunks = Return docs
    /\ List.length docs <= 1000
    /\ List.length docs <= 7
    /\ (7 <= 1000 ->
        Permutation docs (map chunk ["a"; "b"; "c"; "d"; "e"; "f"; "g"]%string)).
Proof.
  exact (get_all_documents_is_capped flat_relevance seven_chunks _ eq_refl).
Defined.

End IndexFacts.

(** ** More of the store *)

Module StoreMoreFacts.

Import PyStrFacts SqliteManager Worlds Columns StoreFacts Fixtures MoreFixtures.

Section Store.

Variable U : unicode_tables.
Variable sqlite3 : sqlite3_driver.
Variable self : SQLiteDBManager.

(** What [get_column_names] makes of the database's answer. *)
Lemma get_column_names_connected (table_name : str) (w : sqlite_world) :
  sqlite3_connect sqlite3 (db_path self) w = Return tt ->
  get_column_names sqlite3 self table_name w
  = (match execute_fetchall sqlite3 (while_connected w)
             (table_info_statement table_name) with
     | Return rows => column_of (lit "name") rows
     | Raise e => if is_sqlite3_Error e then Return [] else Raise e
     end,
     after_call w [table_info_statement table_name]).
Proof.
  intros Hc. unfold get_column_names, _get_db_connection. rewrite Hc.
  change {| connections_opened := S (connections_opened w);
            live_connections := connections_opened w :: live_connections w;
            statements_run := statements_run w |} with (while_connected w).
  rewrite <- (close_after_statement sqlite3 (table_info_statement table_name) w).
  unfold cursor_execute.
  destruct (execute_fetchall sqlite3 (while_connected w)
              (table_info_statement table_name)) as [rows | e];
    cbn [fst snd]; [| reflexivity].
  assert (Hcol : forall rows',
             match column_of (lit "name") rows' with
             | Return r => Return r
             | Raise e => if is_sqlite3_Error e then Return [] else Raise e
             end = column_of (lit "name") rows').
  { induction rows' as [| col rows' IH]; [reflexivity |]. simpl.
    destruct (row_subscript col (lit "name")) as [v | e] eqn:Hs.
    - destruct (column_of (lit "name") rows') as [vs | e]; [reflexivity |].
      exact IH.
    - clear IH. induction col as [| [name v] col IHc]; simpl in Hs.
      + now injection Hs as <-.
      + destruct (equal_ignore_case (lit "name") name); [discriminate |].
        now apply IHc. }
  now rewrite Hcol.
Qed.

Lemma get_column_names_unconnected (table_name : str) (w : sqlite_world)
  (e : exn) :
  sqlite3_connect sqlite3 (db_path self) w = Raise e ->
  get_column_names sqlite3 self table_name w
  = ((if is_sqlite3_Error e then Return [] else Raise e), w).
Proof.
  intros Hc. unfold get_column_names, _get_db_connection. now rewrite Hc.
Qed.

End Store.

(** X9: [get_column_names] leaves no connection open, whether it returns
    the names, turns an error of the database into the empty list, or lets
    another exception through; it opens one connection when
    [sqlite3.connect] returns. *)
Theorem get_column_names_releases_connection
  (sqlite3 : sqlite3_driver) (self : SQLiteDBManager) (table_name : str)
  (w : sqlite_world) :
  live_connections (snd (get_column_names sqlite3 self table_name w))
  = live_connections w
  /\ connections_opened (snd (get_column_names sqlite3 self table_name w))
     = match sqlite3_connect sqlite3 (db_path self) w with
       | Return _ => S (connections_opened w)
       | Raise _ => connections_opened w
       end.
Proof.
  destruct (sqlite3_connect sqlite3 (db_path self) w) as [[] | e] eqn:Hc.
  - rewrite (get_column_names_connected sqlite3 self table_name w Hc).
    split; reflexivity.
  - rewrite (get_column_names_unconnected sqlite3 self table_name w e Hc).
    split; reflexivity.
Qed.

(** X10: when the database cannot be opened, or fails on the PRAGMA, with
    an error of its own, [get_column_names] returns the empty list and
    raises nothing. *)
Theorem get_column_names_fails_soft
  (sqlite3 : sqlite3_driver) (self : SQLiteDBManager) (table_name : str)
  (w : sqlite_world) (e : exn) :
  is_sqlite3_Error e = true ->
  (sqlite3_connect sqlite3 (db_path self) w = Raise e
   \/ (sqlite3_connect sqlite3 (db_path self) w = Return tt
       /\ execute_fetchall sqlite3 (while_connected w)
            (table_info_statement table_name) = Raise e)) ->
  fst (get_column_names sqlite3 self table_name w) = Return [].
Proof.
  intros He [Hc | [Hc Hx]].
  - rewrite (get_column_names_unconnected sqlite3 self table_name w e Hc).
    simpl. now rewrite He.
  - rewrite (get_column_names_connected sqlite3 self table_name w Hc).
    simpl. now rewrite Hx, He.
Qed.

Lemma get_column_names_of_unknown_table :
  fst (get_column_names schema_db manager (lit "no such table") fresh_world)
  = Return [].
Proof.
  apply (get_column_names_fails_soft schema_db manager (lit "no such table")
           fresh_world (sqlite3_Error (lit "near PRAGMA: syntax error")));
    [reflexivity |].
  right. split; reflexivity.
Defined.

Lemma table_info_fails_gate (U : unicode_tables) (table_name : str) :
  starts_with_select U (table_info_statement table_name) = false.
Proof.
  unfold table_info_statement.
  replace (lit "PRAGMA table_info(" ++ table_name ++ lit ")")
    with ((lit "PRAGMA table_info(" ++ table_name) ++ [41%N])
    by (now rewrite <- app_assoc).
  destruct (rstrip_keeps (lit "PRAGMA table_info(" ++ table_name) 41%N []
              eq_refl) as (post' & ws' & _ & Hr).
  unfold starts_with_select, strip.
  replace (lstrip ((lit "PRAGMA table_info(" ++ table_name) ++ [41%N]))
    with ((lit "PRAGMA table_info(" ++ table_name) ++ [41%N])
    by reflexivity.
  assert (He : forall x y : str,
             x = y ->
             startswith (upper U y) (lit "SELECT") = false ->
             startswith (upper U x) (lit "SELECT") = false)
    by (intros x y ->; trivial).
  apply (He _ _ Hr). reflexivity.
Qed.

(** X11: the statement [get_column_names] runs is the PRAGMA with the
    table name spliced in as it is given, and it is one that
    [execute_read_query] refuses: the schema query goes round the gate of
    the read path. *)
Theorem get_column_names_bypasses_gate
  (U : unicode_tables) (sqlite3 : sqlite3_driver) (self : SQLiteDBManager)
  (table_name : str) (w : sqlite_world) :
  sqlite3_connect sqlite3 (db_path self) w = Return tt ->
  statements_run (snd (get_column_names sqlite3 self table_name w))
  = statements_run w ++ [lit "PRAGMA table_info(" ++ table_name ++ lit ")"]
  /\ execute_read_query U sqlite3 self
       (lit "PRAGMA table_info(" ++ table_name ++ lit ")") w
     = (Raise (ValueError only_select_message), after_call w []).
Proof.
  intros Hc. split.
  - now rewrite (get_column_names_connected sqlite3 self table_name w Hc).
  - apply (execute_read_query_rejected U sqlite3 self _ w Hc).
    apply table_info_fails_gate.
Qed.

Lemma schema_query_bypasses_gate :
  fst (get_column_names schema_db manager (lit "fraud_data") fresh_world)
  = Return [SqlText (lit "amt"); SqlText (lit "is_fraud")]
  /\ fst (execute_read_query ascii_only schema_db manager
            (lit "PRAGMA table_info(fraud_data)") fresh_world)
     = Raise (ValueError only_select_message).
Proof.
  destruct (get_column_names_bypasses_gate ascii_only schema_db manager
              (lit "fraud_data") fresh_world eq_refl) as [_ Hg].
  split; [reflexivity |].
  exact (f_equal fst Hg).
Defined.

(** Key comparison. *)
Lemma str_eqb_refl (a : str) : str_eqb a a = true.
Proof.
  induction a as [| x a IH]; [reflexivity |]. simpl.
  unfold char_eqb. now rewrite N.eqb_refl.
Qed.





Lemma str_eqb_sym (a b : str) : str_eqb a b = str_eqb b a.
Proof.
  revert b. induction a as [| x a IH]; intros [| y b]; try reflexivity.
  simpl. unfold char_eqb. now rewrite N.eqb_sym, IH.
Qed.

Lemma dict_set_length (k : str) (v : sql_value) (d : dict) :
  List.length (dict_set k v d) <= S (List.length d).
Proof.
  induction d as [| [k' v'] d IH]; simpl; [lia |].
  destruct (str_eqb k' k); simpl; lia.
Qed.

Lemma fold_dict_set_length (f : str -> sql_value) (keys : list str) (d : dict) :
  List.length (fold_left (fun d k => dict_set k (f k) d) keys d)
  <= List.length d + List.length keys.
Proof.
  revert d. induction keys as [| k keys IH]; intros d; simpl; [lia |].
  specialize (IH (dict_set k (f k) d)).
  pose proof (dict_set_length k (f k) d). lia.
Qed.

Lemma fold_dict_set_head (f : str -> sql_value) (k : str) (v : sql_value)
  (keys : list str) (d : dict) :
  (forall k', str_eqb k k' = true -> f k' = v) ->
  exists d',
    fold_left (fun d key => dict_set key (f key) d) keys ((k, v) :: d)
    = (k, v) :: d'.
Proof.
  intros Hf. revert d. induction keys as [| key keys IH]; intros d.
  - now exists d.
  - cbn [fold_left dict_set]. destruct (str_eqb k key) eqn:Hk.
    + rewrite (Hf key Hk). apply IH.
    + apply IH.
Qed.

(** X12: a row becomes a dict with at most as many entries as the row
    has columns, and its first entry is the first column with its value:
    when later columns bear the name of the first, the value of the first
    is the one that is kept. *)
Theorem dict_of_row_keeps_first_column
  (k : str) (v : sql_value) (r : Row) :
  List.length (dict_of_row ((k, v) :: r)) <= S (List.length r)
  /\ hd_error (dict_of_row ((k, v) :: r)) = Some (k, v).
Proof.
  split.
  - unfold dict_of_row.
    pose proof (fold_dict_set_length (row_get ((k, v) :: r))
                  (map fst ((k, v) :: r)) []) as H.
    rewrite length_map in H. exact H.
  - unfold dict_of_row. cbn [map fst fold_left dict_set].
    assert (Hself : row_get ((k, v) :: r) k = v).
    { simpl. unfold equal_ignore_case. now rewrite str_eqb_refl. }
    rewrite Hself.
    destruct (fold_dict_set_head (row_get ((k, v) :: r)) k v (map fst r) [])
      as (d' & Hd).
    + intros k' Hk. simpl. unfold equal_ignore_case.
      now rewrite (str_eqb_sym k' k), Hk.
    + now rewrite Hd.
Qed.



(** X14: a call of [execute_read_query] runs nothing on the database, or
    the query it was given and nothing else; and it runs the query only
    if the query passes the test for SELECT. *)
Theorem execute_read_query_runs_only_the_query
  (U : unicode_tables) (sqlite3 : sqlite3_driver) (self : SQLiteDBManager)
  (query : str) (w : sqlite_world) :
  statements_run (snd (execute_read_query U sqlite3 self query w))
  = statements_run w
  \/ (statements_run (snd (execute_read_query U sqlite3 self query w))
      = statements_run w ++ [query]
      /\ starts_with_select U query = true).
Proof.
  destruct (sqlite3_connect sqlite3 (db_path self) w) as [[] | e] eqn:Hc.
  - destruct (starts_with_select U query) eqn:Hg.
    + right.
      rewrite (execute_read_query_executed U sqlite3 self query w Hc Hg).
      now split.
    + left.
      rewrite (execute_read_query_rejected U sqlite3 self query w Hc Hg).
      simpl. apply app_nil_r.
  - left.
    now rewrite (execute_read_query_unconnected U sqlite3 self query w e Hc).
Qed.

End StoreMoreFacts.

(** ** More of the agent *)

Module AgentMoreFacts.

Import PyStrFacts Tokens TokensFacts ReFacts GuardFacts.
Import SqliteManager Worlds StoreFacts FaissManager FaissFacts.
Import Agent Ledgers Fixtures MoreFixtures.

(** Padding with white space. *)
Lemma lstrip_leading (ws s : str) : spaces ws -> lstrip (ws ++ s) = lstrip s.
Proof.
  intros Hws. induction Hws as [| a ws Ha _ IH]; [reflexivity |].
  simpl. now rewrite Ha.
Qed.

Lemma rstrip_trailing (s ws : str) : spaces ws -> rstrip (s ++ ws) = rstrip s.
Proof.
  intros Hws. unfold rstrip. rewrite rev_app_distr.
  rewrite lstrip_leading; [reflexivity | now apply Forall_rev].
Qed.

Lemma strip_padded (ws1 q ws2 : str) :
  spaces ws1 -> spaces ws2 -> strip (ws1 ++ q ++ ws2) = strip q.
Proof.
  intros H1 H2. unfold strip. rewrite (lstrip_leading ws1 _ H1).
  destruct (lstrip_decompose q) as (ws & Hq & Hws).
  destruct (lstrip q) as [| c r] eqn:Hl.
  - rewrite app_nil_r in Hq. subst ws.
    rewrite <- (app_nil_r (q ++ ws2)), lstrip_leading; [reflexivity |].
    apply Forall_app. now split.
  - assert (Hc : isspace c = false).
    { destruct (isspace c) eqn:Hc; [| reflexivity].
      exfalso. clear Hq. revert Hl.
      induction q as [| a q IH]; simpl; [discriminate |].
      destruct (isspace a) eqn:Ha; [exact IH |].
      intros H. injection H as -> _. congruence. }
    rewrite Hq at 1. rewrite <- app_assoc.
    rewrite (lstrip_leading ws _ Hws). cbn [app].
    assert (Hh : lstrip (c :: r ++ ws2) = (c :: r) ++ ws2)
      by (simpl; now rewrite Hc).
    rewrite Hh. now apply rstrip_trailing.
Qed.

(** X16: white space around a query changes neither what the keyword
    scan of [query_sql] finds nor whether the query passes the test of the
    store for SELECT. *)
Theorem gates_ignore_padding
  (U : unicode_tables) (ws1 q ws2 : str) :
  spaces ws1 -> spaces ws2 ->
  forbidden_keyword_in U (strip (ws1 ++ q ++ ws2))
  = forbidden_keyword_in U (strip q)
  /\ starts_with_select U (ws1 ++ q ++ ws2) = starts_with_select U q.
Proof.
  intros H1 H2. unfold starts_with_select.
  now rewrite (strip_padded ws1 q ws2 H1 H2).
Qed.

Lemma gates_ignore_padding_of_count :
  forbidden_keyword_in ascii_only (strip padded_count)
  = forbidden_keyword_in ascii_only (strip count_fraud)
  /\ starts_with_select ascii_only padded_count
     = starts_with_select ascii_only count_fraud.
Proof.
  apply (gates_ignore_padding ascii_only (lit "  ") count_fraud
           (lit (String (ascii_of_nat 10) EmptyString)));
    repeat constructor.
Defined.

Section Tools.

Variable U : unicode_tables.
Variable sqlite3 : sqlite3_driver.

Lemma query_sql_database (q : str) (st : state) :
  forbidden_keyword_in U (strip q) = None ->
  db (snd (query_sql U sqlite3 q st))
  = snd (execute_read_query U sqlite3 (tabstore (self st)) q (db st)).
Proof.
  intros Hscan. unfold query_sql. rewrite Hscan.
  destruct (execute_read_query U sqlite3 (tabstore (self st)) q (db st))
    as [[rows | e] w]; reflexivity.
Qed.

End Tools.

(** X15: [query_sql] runs nothing on the database, or the query it was
    given and nothing else; and it runs the query only if no forbidden
    keyword stands alone in it and it passes the test for SELECT. *)
Theorem query_sql_runs_only_gated_queries
  (U : unicode_tables) (sqlite3 : sqlite3_driver) (q : str) (st : state) :
  statements_run (db (snd (query_sql U sqlite3 q st)))
  = statements_run (db st)
  \/ (statements_run (db (snd (query_sql U sqlite3 q st)))
      = statements_run (db st) ++ [q]
      /\ starts_with_select U q = true
      /\ forall keyword,
           In keyword forbidden_keywords -> ~ standalone U keyword q).
Proof.
  destruct (forbidden_keyword_in U (strip q)) as [named |] eqn:Hscan.
  - left. unfold query_sql. now rewrite Hscan.
  - rewrite (query_sql_database U sqlite3 q st Hscan).
    destruct (sqlite3_connect sqlite3 (db_path (tabstore (self st))) (db st))
      as [[] | e] eqn:Hc.
    + destruct (starts_with_select U q) eqn:Hg.
      * right.
        rewrite (execute_read_query_executed U sqlite3 _ q (db st) Hc Hg).
        repeat split. intros keyword Hin.
        exact (scan_misses_nothing U q keyword Hscan Hin).
      * left.
        rewrite (execute_read_query_rejected U sqlite3 _ q (db st) Hc Hg).
        simpl. apply app_nil_r.
    + left.
      now rewrite (execute_read_query_unconnected U sqlite3 _ q (db st) e Hc).
Qed.

(** X17: the two gates look for forbidden keywords and for the leading
    SELECT only: with the database open, a query that begins with SELECT
    and holds no forbidden keyword standing alone is handed to the
    database whole, whatever follows, a semicolon and further statements
    included. *)
Theorem query_sql_passes_stacked_statements
  (U : unicode_tables) (sqlite3 : sqlite3_driver) (rest : str) (st : state) :
  sqlite3_connect sqlite3 (db_path (tabstore (self st))) (db st) = Return tt ->
  (forall keyword,
      In keyword forbidden_keywords ->
      ~ standalone U keyword (lit "SELECT" ++ rest)) ->
  statements_run (db (snd (query_sql U sqlite3 (lit "SELECT" ++ rest) st)))
  = statements_run (db st) ++ [lit "SELECT" ++ rest].
Proof.
  intros Hc Hnone.
  assert (Hscan : forbidden_keyword_in U (strip (lit "SELECT" ++ rest)) = None).
  { destruct (forbidden_keyword_in U (strip (lit "SELECT" ++ rest)))
      as [named |] eqn:Hscan; [| reflexivity].
    destruct (scan_finds_standalone U _ named Hscan) as [Hin Hst].
    exfalso. exact (Hnone named Hin Hst). }
  rewrite (query_sql_database U sqlite3 _ st Hscan).
  now rewrite (execute_read_query_executed U sqlite3 _ _ (db st) Hc
                 (select_prefix_passes_gate U rest)).
Qed.

Lemma vacuum_after_select_reaches_database :
  statements_run (db (snd (query_sql ascii_only fraud_db two_statements
                             fresh_agent)))
  = [two_statements].
Proof.
  apply (query_sql_passes_stacked_statements ascii_only fraud_db
           (lit " 1; VACUUM") fresh_agent eq_refl).
  intros keyword Hin Hst. apply search_keyword in Hst. simpl in Hin.
  repeat (destruct Hin as [<- | Hin];
          [vm_compute in Hst; discriminate |]).
  contradiction.
Defined.

Lemma find_first (A : Type) (f : A -> bool) (before after : list A) (x : A) :
  (forall y, In y before -> f y = false) -> f x = true ->
  find f (before ++ x :: after) = Some x.
Proof.
  intros Hb Hx. induction before as [| y before IH]; simpl.
  - now rewrite Hx.
  - rewrite (Hb y (or_introl eq_refl)). apply IH.
    intros z Hz. apply Hb. now right.
Qed.

(** X18: the keyword in the message is the first of the list UPDATE,
    DELETE, INSERT, DROP, ALTER, CREATE, TRUNCATE that stands alone in the
    query, wherever in the query the keywords stand. *)
Theorem query_sql_names_first_listed_keyword
  (U : unicode_tables) (sqlite3 : sqlite3_driver) (q : str) (st : state)
  (before after : list str) (named : str) :
  forbidden_keywords = before ++ named :: after ->
  standalone U named q ->
  (forall keyword, In keyword before -> ~ standalone U keyword q) ->
  query_sql U sqlite3 q st
  = (Raise (ValueError
              (lit "Disallowed operation: '" ++ named
               ++ lit "' queries are not permitted. Only 'SELECT' is allowed.")),
     st).
Proof.
  intros Hlist Hst Hbefore.
  assert (Hin : forall k, In k (before ++ named :: after) ->
                          In k forbidden_keywords)
    by (intros k; now rewrite Hlist).
  assert (Hsearch : forall k, In k forbidden_keywords ->
            (Re.search U true (keyword_pattern k) (strip q) = true
             <-> standalone U k q)).
  { intros k Hk. destruct (forbidden_keywords_solid k Hk) as [Hne Hsolid].
    rewrite search_keyword. symmetry.
    apply (standalone_strip U k q Hne Hsolid). }
  assert (Hscan : forbidden_keyword_in U (strip q) = Some named).
  { unfold forbidden_keyword_in. rewrite Hlist. apply find_first.
    - intros k Hk. apply not_true_is_false. intros Hs.
      apply (Hbefore k Hk). apply Hsearch; [| exact Hs].
      apply Hin, in_or_app. now left.
    - apply Hsearch; [| exact Hst].
      apply Hin, in_or_app. right. now left. }
  unfold query_sql. rewrite Hscan. unfold disallowed_message.
  rewrite (upper_forbidden U named); [reflexivity |].
  apply Hin, in_or_app. right. now left.
Qed.

Lemma update_is_named_before_drop :
  query_sql ascii_only fraud_db drop_then_update fresh_agent
  = (Raise (ValueError
              (lit "Disallowed operation: 'UPDATE' queries are not permitted. Only 'SELECT' is allowed.")),
     fresh_agent).
Proof.
  apply (query_sql_names_first_listed_keyword ascii_only fraud_db
           drop_then_update fresh_agent []
           (map lit ["DELETE"; "INSERT"; "DROP"; "ALTER"; "CREATE";
                     "TRUNCATE"]%string)
           (lit "UPDATE")).
  - reflexivity.
  - apply search_keyword. vm_compute. reflexivity.
  - intros keyword [].
Defined.

(** X19: a failure of the database is recorded as a success of the
    tool: when a query that passes both gates makes the database raise an
    error of its own, [query_sql] returns the empty list and appends a
    record with status [success] to the ledger. *)
Theorem query_sql_records_database_error_as_success
  (U : unicode_tables) (sqlite3 : sqlite3_driver) (q : str) (st : state)
  (e : exn) :
  (forall keyword,
      In keyword forbidden_keywords -> ~ standalone U keyword q) ->
  starts_with_select U q = true ->
  sqlite3_connect sqlite3 (db_path (tabstore (self st))) (db st) = Return tt ->
  execute_fetchall sqlite3 (while_connected (db st)) q = Raise e ->
  is_sqlite3_Error e = true ->
  query_sql U sqlite3 q st
  = (Return [],
     append_tool_call {| tool_name := lit "query_sql";
                         query := q;
                         status := lit "success" |}
       (set_db (after_call (db st) [q]) st)).
Proof.
  intros Hnone Hg Hc Hx He.
  assert (Hscan : forbidden_keyword_in U (strip q) = None).
  { destruct (forbidden_keyword_in U (strip q)) as [named |] eqn:Hscan;
      [| reflexivity].
    destruct (scan_finds_standalone U q named Hscan) as [Hin Hst].
    exfalso. exact (Hnone named Hin Hst). }
  unfold query_sql. rewrite Hscan.
  rewrite (execute_read_query_executed U sqlite3 _ q (db st) Hc Hg), Hx.
  simpl. now rewrite He.
Qed.

Lemma missing_column_is_recorded_as_success :
  query_sql ascii_only fraud_db missing_column fresh_agent
  = (Return [],
     append_tool_call {| tool_name := lit "query_sql";
                         query := missing_column;
                         status := lit "success" |}
       (set_db (after_call fresh_world [missing_column]) fresh_agent)).
Proof.
  apply (query_sql_records_database_error_as_success ascii_only fraud_db
           missing_column fresh_agent (sqlite3_Error (lit "no such column")));
    try reflexivity.
  intros keyword Hin Hst. apply search_keyword in Hst. simpl in Hin.
  repeat (destruct Hin as [<- | Hin];
          [vm_compute in Hst; discriminate |]).
  contradiction.
Defined.

(** X20: on an agent whose knowledge base has an index,
    [query_vector_db] raises nothing: it returns at most twenty documents,
    no more than the index holds, appends one record of success with the
    query to the ledger, and leaves the rest of the state, the database
    included, as it was. *)
Theorem query_vector_db_returns_and_records
  (relevance : str -> Document -> Q) (q : str) (st : state) (vs : FAISS) :
  vectorstore (vectorestore (self st)) = Some vs ->
  exists docs,
    query_vector_db relevance q st
    = (Return docs,
       append_tool_call {| tool_name := lit "query_vector_db";
                           query := q;
                           status := lit "success" |} st)
    /\ List.length docs <= 20
    /\ List.length docs <= List.length vs.
Proof.
  intros Hv. unfold query_vector_db, retrieve. rewrite Hv.
  unfold similarity_search_with_relevance_scores.
  change (20 <=? 0)%Z with false. cbv iota.
  eexists. split; [reflexivity |].
  rewrite length_firstn, IndexFacts.rank_length, length_map.
  change (Z.to_nat 20) with 20. lia.
Qed.

Lemma query_vector_db_on_placeholder_index :
  exists docs,
    query_vector_db flat_relevance (lit "card testing") fresh_agent
    = (Return docs,
       append_tool_call {| tool_name := lit "query_vector_db";
                           query := lit "card testing";
                           status := lit "success" |} fresh_agent)
    /\ List.length docs <= 20
    /\ List.length docs <= 1.
Proof.
  exact (query_vector_db_returns_and_records flat_relevance
           (lit "card testing") fresh_agent [dummy_doc] eq_refl).
Defined.

Section Loop.

Variable U : unicode_tables.
Variable sqlite3 : sqlite3_driver.
Variable relevance : str -> Document -> Q.
Variable agent : deep_agent.

(** A tool call appends at most one record: a genuine one, for the
    argument of the call. *)
Lemma call_tool_growth (t : tool) (arg : str) (st : state) :
  exists new,
    ledger (snd (call_tool U sqlite3 relevance t arg st)) = ledger st ++ new
    /\ Forall (fun r => genuine r /\ query r = arg) new
    /\ List.length new <= 1.
Proof.
  unfold call_tool. destruct t.
  - unfold query_vector_db.
    destruct (retrieve relevance (vectorestore (self st)) arg 5 20)
      as [docs | e].
    + eexists. split; [reflexivity |]. split; [| simpl; lia].
      constructor; [| constructor].
      split; [split; [reflexivity | now left] | reflexivity].
    + exists []. rewrite app_nil_r. repeat split; [constructor | simpl; lia].
  - unfold query_sql.
    destruct (forbidden_keyword_in U (strip arg)) as [keyword |].
    + exists []. rewrite app_nil_r. repeat split; [constructor | simpl; lia].
    + destruct (execute_read_query U sqlite3 (tabstore (self st)) arg (db st))
        as [[rows | e] w].
      * eexists. split; [reflexivity |]. split; [| simpl; lia].
        constructor; [| constructor].
        split; [split; [reflexivity | now right] | reflexivity].
      * exists []. rewrite app_nil_r.
        repeat split; [constructor | simpl; lia].
Qed.

End Loop.

(** X21: whatever tools are called, with whatever arguments and however
    many times, the entries the ledger held stay in place and each call
    appends one record at most; every record appended has the status
    [success], the name of one of the two tools, and an argument of one of
    the calls as its query. *)
Theorem tool_calls_append_successes
  (U : unicode_tables) (sqlite3 : sqlite3_driver)
  (relevance : str -> Document -> Q)
  (calls : list (tool * str)) (st : state) :
  exists new,
    ledger (call_tools U sqlite3 relevance calls st) = ledger st ++ new
    /\ Forall (fun r => genuine r /\ In (query r) (map snd calls)) new
    /\ List.length new <= List.length calls.
Proof.
  revert st. induction calls as [| [t arg] calls IH]; intros st.
  - exists []. rewrite app_nil_r. repeat split; [constructor | simpl; lia].
  - unfold call_tools. cbn [fold_left fst snd].
    destruct (call_tool_growth U sqlite3 relevance t arg st)
      as (new1 & Hl1 & Hg1 & Hn1).
    destruct (IH (snd (call_tool U sqlite3 relevance t arg st)))
      as (new2 & Hl2 & Hg2 & Hn2).
    unfold call_tools in Hl2.
    exists (new1 ++ new2). repeat split.
    + now rewrite Hl2, Hl1, app_assoc.
    + apply Forall_app. split.
      * eapply Forall_impl; [| exact Hg1]. cbv beta.
        intros r [Hr Hq]. split; [exact Hr |]. left. now rewrite Hq.
      * eapply Forall_impl; [| exact Hg2]. cbv beta.
        intros r [Hr Hq]. split; [exact Hr |]. now right.
    + rewrite length_app. simpl. lia.
Qed.

End AgentMoreFacts.
